(** * PDFEditor: the annotation-editing core of [src/components/PDFEditor.tsx]

    A shallow embedding of the React component's state, of its event
    handlers and of the export routine, followed by the properties of the
    editor that are proved about them.

    Conventions of the embedding.
    - A JavaScript [number] that holds a coordinate, a length or a scale is a
      real number ([R]): arithmetic is exact, rounding and NaN are not
      modelled.  Page numbers and clock readings are integers ([Z]).
    - A JavaScript string is the list of its UTF-16 code units.
    - The component's [useState] cells are the fields of [State]; a handler
      is a function from the state it runs in to the next state and the
      notifications it raised.  [console.log] calls are left out.
    - What a handler obtains from its environment is an argument of the
      handler: the mouse event, the value of [canvasRef.current] (with the
      rectangle [getBoundingClientRect] returns) and the reading of
      [Date.now()]. *)

From Stdlib Require Import Reals Lra Lia List String Ascii ZArith NArith Bool.
From Stdlib Require Import DecimalString DecimalZ DecimalPos.
From Stdlib Require Import SpecFloat.
Import ListNotations.

Open Scope R_scope.

(** ** JavaScript strings *)

Definition code_unit := N.
Definition jsstring := list code_unit.

(** A string literal of the source, as code units. *)
Definition js (s : string) : jsstring :=
  map N_of_ascii (list_ascii_of_string s).

Fixpoint jsstring_eqb (a b : jsstring) : bool :=
  match a, b with
  | [], [] => true
  | c :: a', d :: b' => N.eqb c d && jsstring_eqb a' b'
  | _, _ => false
  end.

(** ECMAScript's WhiteSpace and LineTerminator code points, the characters
    [String.prototype.trim] and [parseInt] strip. *)
Definition is_whitespace (c : code_unit) : bool :=
  ((c =? 0x0009) || (c =? 0x000A) || (c =? 0x000B) || (c =? 0x000C) ||
   (c =? 0x000D) || (c =? 0x0020) || (c =? 0x00A0) || (c =? 0x1680) ||
   ((0x2000 <=? c) && (c <=? 0x200A)) ||
   (c =? 0x2028) || (c =? 0x2029) || (c =? 0x202F) || (c =? 0x205F) ||
   (c =? 0x3000) || (c =? 0xFEFF))%N.

Fixpoint trimStart (s : jsstring) : jsstring :=
  match s with
  | [] => []
  | c :: s' => if is_whitespace c then trimStart s' else s
  end.

Definition trimEnd (s : jsstring) : jsstring := rev (trimStart (rev s)).

(** [s.trim()] *)
Definition trim (s : jsstring) : jsstring := trimEnd (trimStart s).

(** Truthiness of a string: only the empty string is falsy. *)
Definition truthy (s : jsstring) : bool :=
  match s with [] => false | _ :: _ => true end.

(** [s.slice(a, b)] for [0 <= a <= b]. *)
Definition slice (a b : nat) (s : jsstring) : jsstring :=
  firstn (b - a) (skipn a s).

(** [n.toString()] of an integer: its decimal numeral. *)
Definition toString (n : Z) : jsstring :=
  js (NilZero.string_of_int (Z.to_int n)).

(** ** Comparisons of numbers, as the booleans the code branches on *)

Definition gtb (a b : R) : bool := if Rgt_dec a b then true else false.
Definition geb (a b : R) : bool := if Rge_dec a b then true else false.
Definition leb (a b : R) : bool := if Rle_dec a b then true else false.

(** ** Data model (lines 18-33) *)

Module TextAnnotation.
Record t := mk {
  id : jsstring;
  x : R;
  y : R;
  text : jsstring;
  fontSize : R;
  color : jsstring
}.
End TextAnnotation.

Module BlurArea.
Record t := mk {
  id : jsstring;
  x : R;
  y : R;
  width : R;
  height : R
}.
End BlurArea.

Module Point.
Record t := mk { x : R; y : R }.
End Point.

Inductive Tool := Select | Text | Blur | Erase.

Inductive AnnotationKind := KText | KBlur.

(** The part of a [File] the component reads. *)
Record File := {
  file_name : jsstring;
  file_type : jsstring;
  file_bytes : list N
}.

(** The part of a [DOMRect] and of a [MouseEvent] the handlers read. *)
Record DOMRect := { left : R; top : R }.
Record MouseEvent := { clientX : R; clientY : R }.

(** ** Component state (lines 36-48) *)

Record State := {
  pdfFile : option File;
  numPages : Z;
  currentPage : Z;
  scale : R;
  activeTool : Tool;
  textAnnotations : list TextAnnotation.t;
  blurAreas : list BlurArea.t;
  isDrawing : bool;
  startPoint : option Point.t;
  newText : jsstring;
  fontSize : R;
  textColor : jsstring;
  pdfLoading : bool
}.

Definition initialState : State := {|
  pdfFile := None;
  numPages := 0;
  currentPage := 1;
  scale := 1.0;
  activeTool := Select;
  textAnnotations := [];
  blurAreas := [];
  isDrawing := false;
  startPoint := None;
  newText := js "";
  fontSize := 16;
  textColor := js "#000000";
  pdfLoading := false
|}.

(** ** Notifications *)

Inductive Effect :=
| ToastSuccess (msg : string)
| ToastError (msg : string)
| ToastInfo (msg : string).

(** ** Handlers: state passing with a log of notifications *)

Definition Handler := State -> State * list Effect.

Definition skip : Handler := fun st => (st, []).

Definition andThen (h1 h2 : Handler) : Handler :=
  fun st =>
    let (s1, e1) := h1 st in
    let (s2, e2) := h2 s1 in
    (s2, e1 ++ e2).

Declare Scope handler_scope.
Delimit Scope handler_scope with handler.
Bind Scope handler_scope with Handler.
Notation "h1 ;; h2" := (andThen h1 h2)
  (at level 61, right associativity) : handler_scope.
Open Scope handler_scope.

Definition toast_success (msg : string) : Handler :=
  fun st => (st, [ToastSuccess msg]).
Definition toast_error (msg : string) : Handler :=
  fun st => (st, [ToastError msg]).
Definition toast_info (msg : string) : Handler :=
  fun st => (st, [ToastInfo msg]).

(** The state setters [useState] returns.  Those the code calls with an
    updater function ([setX(prev => ...)]) take the function. *)

Definition setPdfFile (v : option File) : Handler := fun st =>
  ({| pdfFile := v; numPages := numPages st; currentPage := currentPage st;
      scale := scale st; activeTool := activeTool st;
      textAnnotations := textAnnotations st; blurAreas := blurAreas st;
      isDrawing := isDrawing st; startPoint := startPoint st;
      newText := newText st; fontSize := fontSize st;
      textColor := textColor st; pdfLoading := pdfLoading st |}, []).

Definition setNumPages (v : Z) : Handler := fun st =>
  ({| pdfFile := pdfFile st; numPages := v; currentPage := currentPage st;
      scale := scale st; activeTool := activeTool st;
      textAnnotations := textAnnotations st; blurAreas := blurAreas st;
      isDrawing := isDrawing st; startPoint := startPoint st;
      newText := newText st; fontSize := fontSize st;
      textColor := textColor st; pdfLoading := pdfLoading st |}, []).

Definition updCurrentPage (f : Z -> Z) : Handler := fun st =>
  ({| pdfFile := pdfFile st; numPages := numPages st;
      currentPage := f (currentPage st);
      scale := scale st; activeTool := activeTool st;
      textAnnotations := textAnnotations st; blurAreas := blurAreas st;
      isDrawing := isDrawing st; startPoint := startPoint st;
      newText := newText st; fontSize := fontSize st;
      textColor := textColor st; pdfLoading := pdfLoading st |}, []).

Definition setCurrentPage (v : Z) : Handler := updCurrentPage (fun _ => v).

Definition updScale (f : R -> R) : Handler := fun st =>
  ({| pdfFile := pdfFile st; numPages := numPages st;
      currentPage := currentPage st;
      scale := f (scale st); activeTool := activeTool st;
      textAnnotations := textAnnotations st; blurAreas := blurAreas st;
      isDrawing := isDrawing st; startPoint := startPoint st;
      newText := newText st; fontSize := fontSize st;
      textColor := textColor st; pdfLoading := pdfLoading st |}, []).

Definition setActiveTool (v : Tool) : Handler := fun st =>
  ({| pdfFile := pdfFile st; numPages := numPages st;
      currentPage := currentPage st;
      scale := scale st; activeTool := v;
      textAnnotations := textAnnotations st; blurAreas := blurAreas st;
      isDrawing := isDrawing st; startPoint := startPoint st;
      newText := newText st; fontSize := fontSize st;
      textColor := textColor st; pdfLoading := pdfLoading st |}, []).

Definition updTextAnnotations
    (f : list TextAnnotation.t -> list TextAnnotation.t) : Handler :=
  fun st =>
  ({| pdfFile := pdfFile st; numPages := numPages st;
      currentPage := currentPage st;
      scale := scale st; activeTool := activeTool st;
      textAnnotations := f (textAnnotations st); blurAreas := blurAreas st;
      isDrawing := isDrawing st; startPoint := startPoint st;
      newText := newText st; fontSize := fontSize st;
      textColor := textColor st; pdfLoading := pdfLoading st |}, []).

Definition setTextAnnotations (v : list TextAnnotation.t) : Handler :=
  updTextAnnotations (fun _ => v).

Definition updBlurAreas (f : list BlurArea.t -> list BlurArea.t) : Handler :=
  fun st =>
  ({| pdfFile := pdfFile st; numPages := numPages st;
      currentPage := currentPage st;
      scale := scale st; activeTool := activeTool st;
      textAnnotations := textAnnotations st; blurAreas := f (blurAreas st);
      isDrawing := isDrawing st; startPoint := startPoint st;
      newText := newText st; fontSize := fontSize st;
      textColor := textColor st; pdfLoading := pdfLoading st |}, []).

Definition setBlurAreas (v : list BlurArea.t) : Handler :=
  updBlurAreas (fun _ => v).

Definition setIsDrawing (v : bool) : Handler := fun st =>
  ({| pdfFile := pdfFile st; numPages := numPages st;
      currentPage := currentPage st;
      scale := scale st; activeTool := activeTool st;
      textAnnotations := textAnnotations st; blurAreas := blurAreas st;
      isDrawing := v; startPoint := startPoint st;
      newText := newText st; fontSize := fontSize st;
      textColor := textColor st; pdfLoading := pdfLoading st |}, []).

Definition setStartPoint (v : option Point.t) : Handler := fun st =>
  ({| pdfFile := pdfFile st; numPages := numPages st;
      currentPage := currentPage st;
      scale := scale st; activeTool := activeTool st;
      textAnnotations := textAnnotations st; blurAreas := blurAreas st;
      isDrawing := isDrawing st; startPoint := v;
      newText := newText st; fontSize := fontSize st;
      textColor := textColor st; pdfLoading := pdfLoading st |}, []).

Definition setNewText (v : jsstring) : Handler := fun st =>
  ({| pdfFile := pdfFile st; numPages := numPages st;
      currentPage := currentPage st;
      scale := scale st; activeTool := activeTool st;
      textAnnotations := textAnnotations st; blurAreas := blurAreas st;
      isDrawing := isDrawing st; startPoint := startPoint st;
      newText := v; fontSize := fontSize st;
      textColor := textColor st; pdfLoading := pdfLoading st |}, []).

Definition setFontSize (v : R) : Handler := fun st =>
  ({| pdfFile := pdfFile st; numPages := numPages st;
      currentPage := currentPage st;
      scale := scale st; activeTool := activeTool st;
      textAnnotations := textAnnotations st; blurAreas := blurAreas st;
      isDrawing := isDrawing st; startPoint := startPoint st;
      newText := newText st; fontSize := v;
      textColor := textColor st; pdfLoading := pdfLoading st |}, []).

Definition setTextColor (v : jsstring) : Handler := fun st =>
  ({| pdfFile := pdfFile st; numPages := numPages st;
      currentPage := currentPage st;
      scale := scale st; activeTool := activeTool st;
      textAnnotations := textAnnotations st; blurAreas := blurAreas st;
      isDrawing := isDrawing st; startPoint := startPoint st;
      newText := newText st; fontSize := fontSize st;
      textColor := v; pdfLoading := pdfLoading st |}, []).

Definition setPdfLoading (v : bool) : Handler := fun st =>
  ({| pdfFile := pdfFile st; numPages := numPages st;
      currentPage := currentPage st;
      scale := scale st; activeTool := activeTool st;
      textAnnotations := textAnnotations st; blurAreas := blurAreas st;
      isDrawing := isDrawing st; startPoint := startPoint st;
      newText := newText st; fontSize := fontSize st;
      textColor := textColor st; pdfLoading := v |}, []).

(** ** Coordinate mapping

    The three pointer handlers compute the same expression,
    [(event.clientX - rect.left) / scale] and its [y] counterpart
    (lines 95-96, 124-125, 133-134, 170-171); the overlays are laid out at
    [annotation.x * scale], [annotation.y * scale], offsets from the
    canvas element (lines 567-568, 585-586). *)

Definition toDocumentSpace (event : MouseEvent) (rect : DOMRect) (s : R)
  : Point.t :=
  Point.mk ((clientX event - left rect) / s) ((clientY event - top rect) / s).

Definition toScreenSpace (p : Point.t) (s : R) : Point.t :=
  Point.mk (Point.x p * s) (Point.y p * s).

(** ** Document loading (lines 53-82) *)

Definition onDocumentLoadSuccess (n : Z) : Handler :=
  setNumPages n ;;
  setCurrentPage 1 ;;
  setPdfLoading false ;;
  toast_success ("PDF loaded successfully! " ++
                 NilZero.string_of_int (Z.to_int n) ++ " pages found.").

Definition onDocumentLoadError : Handler :=
  setPdfLoading false ;;
  toast_error "Failed to load PDF file. Please try again.".

(** [file] is [event.target.files?.[0]]. *)
Definition handleFileUpload (file : option File) : Handler :=
  match file with
  | Some f =>
      if jsstring_eqb (file_type f) (js "application/pdf") then
        setPdfLoading true ;;
        setPdfFile (Some f) ;;
        setTextAnnotations [] ;;
        setBlurAreas [] ;;
        setCurrentPage 1 ;;
        toast_success "PDF file selected, loading..."
      else toast_error "Please select a valid PDF file"
  | None => toast_error "Please select a valid PDF file"
  end.

(** ** Text placement (lines 84-116)

    [canvas] is [canvasRef.current] with its bounding rectangle, [now] the
    reading of [Date.now()]. *)

Definition handleCanvasClick (canvas : option DOMRect) (event : MouseEvent)
    (now : Z) : Handler :=
  fun st =>
    match canvas, activeTool st with
    | Some rect, Text =>
        if negb (truthy (trim (newText st))) then
          toast_error "Please enter text before placing it on the PDF" st
        else
          let p := toDocumentSpace event rect (scale st) in
          let annotation :=
            TextAnnotation.mk (toString now) (Point.x p) (Point.y p)
                              (newText st) (fontSize st) (textColor st) in
          (updTextAnnotations (fun prev => prev ++ [annotation]) ;;
           setNewText (js "") ;;
           toast_success "Text annotation added") st
    | _, _ => skip st
    end.

(** ** Pointer down: start of a blur drag, or erase (lines 118-163) *)

(** The test of the text filter: the annotation is kept when its anchor is
    further than 30 from the point (lines 140-145). *)
Definition distance (a : TextAnnotation.t) (p : Point.t) : R :=
  sqrt ((TextAnnotation.x a - Point.x p) ^ 2 +
        (TextAnnotation.y a - Point.y p) ^ 2).

Definition keepText (p : Point.t) (a : TextAnnotation.t) : bool :=
  gtb (distance a p) 30.

(** The test of the blur filter: the area is kept unless it contains the
    point (lines 152-155). *)
Definition containsPoint (area : BlurArea.t) (p : Point.t) : bool :=
  geb (Point.x p) (BlurArea.x area) &&
  leb (Point.x p) (BlurArea.x area + BlurArea.width area) &&
  geb (Point.y p) (BlurArea.y area) &&
  leb (Point.y p) (BlurArea.y area + BlurArea.height area).

Definition keepBlur (p : Point.t) (area : BlurArea.t) : bool :=
  negb (containsPoint area p).

Definition handleMouseDown (canvas : option DOMRect) (event : MouseEvent)
  : Handler :=
  fun st =>
    match activeTool st with
    | Blur =>
        match canvas with
        | Some rect =>
            let p := toDocumentSpace event rect (scale st) in
            (setStartPoint (Some p) ;; setIsDrawing true) st
        | None => skip st
        end
    | Erase =>
        match canvas with
        | Some rect =>
            let p := toDocumentSpace event rect (scale st) in
            (updTextAnnotations (filter (keepText p)) ;;
             updBlurAreas (filter (keepBlur p)) ;;
             toast_success "Annotation erased") st
        | None => skip st
        end
    | _ => skip st
    end.

(** ** Pointer up: end of a blur drag (lines 165-200) *)

Definition handleMouseUp (canvas : option DOMRect) (event : MouseEvent)
    (now : Z) : Handler :=
  fun st =>
    ((match isDrawing st, startPoint st, canvas, activeTool st with
      | true, Some start, Some rect, Blur =>
          let endP := toDocumentSpace event rect (scale st) in
          let width := Rabs (Point.x endP - Point.x start) in
          let height := Rabs (Point.y endP - Point.y start) in
          let x := Rmin (Point.x start) (Point.x endP) in
          let y := Rmin (Point.y start) (Point.y endP) in
          if gtb width 10 && gtb height 10 then
            let blurArea := BlurArea.mk (toString now) x y width height in
            updBlurAreas (fun prev => prev ++ [blurArea]) ;;
            toast_success "Blur area added"
          else toast_error "Blur area too small - drag a larger area"
      | _, _, _, _ => skip
      end) ;;
     setIsDrawing false ;;
     setStartPoint None) st.

(** ** Removal from the annotation list (lines 202-209) *)

Definition removeAnnotation (id : jsstring) (type : AnnotationKind)
  : Handler :=
  (match type with
   | KText =>
       updTextAnnotations
         (filter (fun ann => negb (jsstring_eqb (TextAnnotation.id ann) id)))
   | KBlur =>
       updBlurAreas
         (filter (fun area => negb (jsstring_eqb (BlurArea.id area) id)))
   end) ;;
  toast_success "Annotation removed".

(** ** Zoom and page navigation (lines 267-268, 509, 520) *)

Definition zoomIn : Handler := updScale (fun prev => Rmin (prev + 0.2) 3.0).
Definition zoomOut : Handler := updScale (fun prev => Rmax (prev - 0.2) 0.5).

Definition previousPage : Handler :=
  updCurrentPage (fun prev => Z.max (prev - 1) 1).
Definition nextPage : Handler :=
  fun st => updCurrentPage (fun prev => Z.min (prev + 1) (numPages st)) st.

(** ** Events and runs of the editor *)

Inductive Event :=
| FileUpload (file : option File)
| DocumentLoadSuccess (n : Z)
| DocumentLoadError
| CanvasClick (canvas : option DOMRect) (event : MouseEvent) (now : Z)
| MouseDown (canvas : option DOMRect) (event : MouseEvent)
| MouseUp (canvas : option DOMRect) (event : MouseEvent) (now : Z)
| SelectTool (tool : Tool)
| TypeText (v : jsstring)
| ChooseFontSize (v : R)
| ChooseColor (v : jsstring)
| RemoveAnnotation (id : jsstring) (type : AnnotationKind)
| ZoomIn
| ZoomOut
| PreviousPage
| NextPage.

Definition handle (e : Event) : Handler :=
  match e with
  | FileUpload file => handleFileUpload file
  | DocumentLoadSuccess n => onDocumentLoadSuccess n
  | DocumentLoadError => onDocumentLoadError
  | CanvasClick canvas event now => handleCanvasClick canvas event now
  | MouseDown canvas event => handleMouseDown canvas event
  | MouseUp canvas event now => handleMouseUp canvas event now
  | SelectTool tool => setActiveTool tool
  | TypeText v => setNewText v
  | ChooseFontSize v => setFontSize v
  | ChooseColor v => setTextColor v
  | RemoveAnnotation id type => removeAnnotation id type
  | ZoomIn => zoomIn
  | ZoomOut => zoomOut
  | PreviousPage => previousPage
  | NextPage => nextPage
  end.

Definition step (st : State) (e : Event) : State := fst (handle e st).

(** The state after a sequence of events. *)
Definition run (events : list Event) (st : State) : State :=
  fold_left step events st.

(** ** Overlay projection (lines 562-592) *)





(** ** Export (lines 211-265) *)

(** The value of a hexadecimal digit. *)
Definition hexDigit (c : code_unit) : option Z :=
  if ((48 <=? c) && (c <=? 57))%N then Some (Z.of_N c - 48)%Z
  else if ((97 <=? c) && (c <=? 102))%N then Some (Z.of_N c - 87)%Z
  else if ((65 <=? c) && (c <=? 70))%N then Some (Z.of_N c - 55)%Z
  else None.

(** The value of the longest prefix of hexadecimal digits, and whether it
    has a digit at all. *)
Fixpoint hexPrefix (acc : Z) (seen : bool) (s : jsstring) : option Z :=
  match s with
  | [] => if seen then Some acc else None
  | c :: s' =>
      match hexDigit c with
      | Some d => hexPrefix (16 * acc + d)%Z true s'
      | None => if seen then Some acc else None
      end
  end.

(** [parseInt(s, 16)]: leading white space, a sign and a [0x] prefix are
    skipped, then the longest prefix of digits is read; [None] is NaN. *)
Definition parseInt16 (s : jsstring) : option Z :=
  let s1 := trimStart s in
  let (sign, s2) :=
    match s1 with
    | c :: r => if (c =? 45)%N then ((-1)%Z, r)
                else if (c =? 43)%N then (1%Z, r)
                else (1%Z, s1)
    | [] => (1%Z, s1)
    end in
  let s3 :=
    match s2 with
    | z :: c :: r =>
        if ((z =? 48) && ((c =? 120) || (c =? 88)))%N then r else s2
    | _ => s2
    end in
  option_map (Z.mul sign) (hexPrefix 0 false s3).

(** A colour given to [rgb]; a component that is NaN is [None]. *)
Record RGB := { red : option R; green : option R; blue : option R }.

(** [parseInt(color.slice(a, b), 16) / 255] *)
Definition channel (color : jsstring) (a b : nat) : option R :=
  option_map (fun n => IZR n / 255) (parseInt16 (slice a b color)).

(** The drawing calls made on the page. *)
Inductive DrawOp :=
| DrawText (text : jsstring) (x y size : R) (color : RGB)
| DrawRectangle (x y width height : R) (color : RGB) (opacity : R).

Inductive ExportOutcome :=
| NoFile
| Failed
| Saved (ops : list DrawOp) (download : jsstring).

(** [pages[i]] of a JavaScript array: [undefined] out of range. *)
Definition pageAt (pages : list R) (i : Z) : option R :=
  if (0 <=? i)%Z then nth_error pages (Z.to_nat i) else None.

Section ExportEngine.

(** [PDFDocument.load] of the construction library on the file's bytes:
    the heights of the document's pages, or [None] when it throws. *)
Variable PDFDocument_load : list N -> option (list R).

Definition drawTextAnnotation (pageHeight : R) (annotation : TextAnnotation.t)
  : DrawOp :=
  DrawText (TextAnnotation.text annotation)
           (TextAnnotation.x annotation)
           (pageHeight - TextAnnotation.y annotation)
           (TextAnnotation.fontSize annotation)
           {| red := channel (TextAnnotation.color annotation) 1 3;
              green := channel (TextAnnotation.color annotation) 3 5;
              blue := channel (TextAnnotation.color annotation) 5 7 |}.

Definition drawBlurArea (pageHeight : R) (area : BlurArea.t) : DrawOp :=
  DrawRectangle (BlurArea.x area)
                (pageHeight - BlurArea.y area - BlurArea.height area)
                (BlurArea.width area)
                (BlurArea.height area)
                {| red := Some 0.8; green := Some 0.8; blue := Some 0.8 |}
                0.7.

(** The state is not changed; the result is what was drawn and saved.
    A call on the page when [pages[currentPage - 1]] is [undefined]
    throws, which the [catch] turns into the failure notification; with
    nothing to draw no call is made. *)
Definition downloadModifiedPDF (st : State) : ExportOutcome * list Effect :=
  match pdfFile st with
  | None => (NoFile, [ToastError "No PDF file loaded"])
  | Some file =>
      let failure :=
        (Failed, [ToastInfo "Generating modified PDF...";
                  ToastError "Failed to save PDF. Please try again."]) in
      match PDFDocument_load (file_bytes file) with
      | None => failure
      | Some pages =>
          let name := js "edited-document-page-" ++ toString (currentPage st)
                      ++ js ".pdf" in
          let saved ops :=
            (Saved ops name,
             [ToastInfo "Generating modified PDF...";
              ToastSuccess "PDF downloaded successfully!"]) in
          match pageAt pages (currentPage st - 1) with
          | Some pageHeight =>
              saved (map (drawTextAnnotation pageHeight) (textAnnotations st)
                     ++ map (drawBlurArea pageHeight) (blurAreas st))
          | None =>
              match textAnnotations st, blurAreas st with
              | [], [] => saved []
              | _, _ => failure
              end
          end
      end
  end.

End ExportEngine.

(** The value of an [<input type="color">]: [#rrggbb] in lower case. *)
Definition hexChar (d : Z) : code_unit :=
  if (d <? 10)%Z then Z.to_N (48 + d) else Z.to_N (87 + d).

Definition hex2 (n : Z) : jsstring := [hexChar (n / 16); hexChar (n mod 16)].

Definition hexColor (r g b : Z) : jsstring :=
  js "#" ++ hex2 r ++ hex2 g ++ hex2 b.

(** ** Sample data for the concrete runs *)

Definition samplePdf : File :=
  {| file_name := js "report.pdf";
     file_type := js "application/pdf";
     file_bytes := [37; 80; 68; 70]%N |}.

Definition pointer (x y : R) : MouseEvent := {| clientX := x; clientY := y |}.

Definition originRect : DOMRect := {| left := 0; top := 0 |}.
Definition shiftedRect : DOMRect := {| left := 10; top := 20 |}.

(** A three-page document has been loaded into a fresh editor. *)
Definition readyState : State :=
  run [FileUpload (Some samplePdf); DocumentLoadSuccess 3] initialState.

(** The loaded editor with each of the editing tools selected. *)
Definition textState : State := run [SelectTool Text] readyState.
Definition blurState : State := run [SelectTool Blur] readyState.

(** One text annotation has been placed at the document point (100, 100). *)
Definition annotatedState : State :=
  run [TypeText (js "Confidential");
       CanvasClick (Some originRect) (pointer 100 100) 1700000000000]
      textState.

(** A construction library that reads the sample file as three pages of
    height 792. *)
Definition sampleLoad (bytes : list N) : option (list R) :=
  Some [792; 792; 792].

(** A blur drag has been started at the document point (50, 50). *)
Definition draggingState : State :=
  run [MouseDown (Some originRect) (pointer 50 50)] blurState.


(** ** What the rendered page lets the user do (lines 270-622)

    The toolbar, the page navigation and the canvas are rendered only while
    a file is selected ([pdfFile && ...], [pdfFile ? ... : ...]); the text
    input only while the text tool is active; an annotation's remove button
    only while the annotation is in its list; the zoom and page buttons
    carry a [disabled] attribute.  The loading callbacks belong to the
    [Document] element inside the canvas.  The file input itself is always
    present. *)

Definition hasFile (st : State) : bool :=
  match pdfFile st with Some _ => true | None => false end.

Definition isText (t : Tool) : bool :=
  match t with Text => true | _ => false end.

Definition isSome {A : Type} (o : option A) : bool :=
  match o with Some _ => true | None => false end.

Definition enabled (st : State) (e : Event) : bool :=
  match e with
  | FileUpload _ => true
  | DocumentLoadSuccess _ | DocumentLoadError => hasFile st
  | CanvasClick canvas _ _ | MouseDown canvas _ | MouseUp canvas _ _ =>
      hasFile st && isSome canvas
  | SelectTool _ => hasFile st
  | TypeText _ | ChooseFontSize _ | ChooseColor _ =>
      hasFile st && isText (activeTool st)
  | RemoveAnnotation id KText =>
      hasFile st &&
      existsb (fun a => jsstring_eqb (TextAnnotation.id a) id)
              (textAnnotations st)
  | RemoveAnnotation id KBlur =>
      hasFile st &&
      existsb (fun a => jsstring_eqb (BlurArea.id a) id) (blurAreas st)
  | ZoomIn => hasFile st && negb (geb (scale st) 3.0)
  | ZoomOut => hasFile st && negb (leb (scale st) 0.5)
  | PreviousPage => hasFile st && negb (currentPage st <=? 1)%Z
  | NextPage => hasFile st && negb (currentPage st >=? numPages st)%Z
  end.

(** Every event of the sequence arrives in a state that offers it. *)
Fixpoint admissible (st : State) (events : list Event) : bool :=
  match events with
  | [] => true
  | e :: rest => enabled st e && admissible (step st e) rest
  end.

(** ** Clock readings and identifiers of a run *)

(** The reading of [Date.now()] an event comes with, if it takes one. *)
Definition clock (e : Event) : list Z :=
  match e with
  | CanvasClick _ _ now | MouseUp _ _ now => [now]
  | _ => []
  end.

Definition clocks (events : list Event) : list Z := flat_map clock events.

(** Each reading is greater than the one before, all of them at least
    [lo]. *)
Fixpoint ascendingFrom (lo : Z) (l : list Z) : bool :=
  match l with
  | [] => true
  | t :: rest => (lo <=? t)%Z && ascendingFrom (t + 1) rest
  end.

(** The identifiers held by a state, text annotations first. *)
Definition identifiers (st : State) : list jsstring :=
  map TextAnnotation.id (textAnnotations st) ++
  map BlurArea.id (blurAreas st).

Definition isMouseDown (e : Event) : bool :=
  match e with MouseDown _ _ => true | _ => false end.

Definition isDocumentLoadSuccess (e : Event) : bool :=
  match e with DocumentLoadSuccess _ => true | _ => false end.

(** ** Double-precision numbers

    A JavaScript [number] is an IEEE 754 binary64 value.  Where the outcome
    of a handler depends on how a quotient, a difference or a square root
    is rounded (the thresholds of the blur and erase tools, the way back
    from document space to the screen), the handlers are embedded over
    binary64, with the operations of the Standard Library's specification
    of floating-point arithmetic. *)

Module Double.

Definition prec : Z := 53.
Definition emax : Z := 1024.

Definition double := spec_float.

Definition NaN : double := S754_nan.

(** The double denoted by an integer literal. *)
Definition ofZ (n : Z) : double := binary_normalize prec emax n 0 false.

Definition add : double -> double -> double := SFadd prec emax.
Definition sub : double -> double -> double := SFsub prec emax.
Definition mul : double -> double -> double := SFmul prec emax.
Definition div : double -> double -> double := SFdiv prec emax.

(** The double a decimal literal [n/d] denotes: the one nearest to the
    quotient, which is what the correctly rounded division returns. *)
Definition decimal (n d : Z) : double := div (ofZ n) (ofZ d).

(** [a > b], [a >= b], [a <= b]: false when an operand is NaN. *)
Definition gtb (a b : double) : bool := SFltb b a.
Definition geb (a b : double) : bool := SFleb b a.
Definition leb (a b : double) : bool := SFleb a b.

(** [Math.abs], [Math.sqrt], and [Math.pow(x, 2)] as the correctly rounded
    square. *)
Definition abs : double -> double := SFabs.
Definition sqrt : double -> double := SFsqrt prec emax.
Definition pow2 (x : double) : double := mul x x.

(** [Math.min] and [Math.max]: NaN when an operand is NaN, and -0 below
    +0. *)
Definition min (a b : double) : double :=
  match SFcompare a b with
  | None => NaN
  | Some Lt => a
  | Some Gt => b
  | Some Eq => match a with S754_zero true => a | _ => b end
  end.

Definition max (a b : double) : double :=
  match SFcompare a b with
  | None => NaN
  | Some Lt => b
  | Some Gt => a
  | Some Eq => match a with S754_zero false => a | _ => b end
  end.

(** The real number a finite double stands for (0 for the others). *)
Definition B2R (x : double) : R :=
  match x with
  | S754_finite s m e => IZR (cond_Zopp s (Zpos m)) * powerRZ 2 e
  | _ => 0
  end.

Definition isFinite (x : double) : bool :=
  match x with
  | S754_finite _ _ _ | S754_zero _ => true
  | _ => false
  end.

Module TextAnnotation.
Record t := mk {
  id : jsstring;
  x : double;
  y : double;
  text : jsstring;
  fontSize : double;
  color : jsstring
}.
End TextAnnotation.

Module BlurArea.
Record t := mk {
  id : jsstring;
  x : double;
  y : double;
  width : double;
  height : double
}.
End BlurArea.

Module Point.
Record t := mk { x : double; y : double }.
End Point.

Record DOMRect := { left : double; top : double }.
Record MouseEvent := { clientX : double; clientY : double }.

Record State := {
  scale : double;
  activeTool : Tool;
  textAnnotations : list TextAnnotation.t;
  blurAreas : list BlurArea.t;
  isDrawing : bool;
  startPoint : option Point.t;
  newText : jsstring;
  fontSize : double;
  textColor : jsstring
}.

(** The part of the component's initial state the pointer handlers and the
    zoom buttons read or write (lines 39-47). *)
Definition initialState : State := {|
  scale := decimal 10 10;
  activeTool := Select;
  textAnnotations := [];
  blurAreas := [];
  isDrawing := false;
  startPoint := None;
  newText := js "";
  fontSize := ofZ 16;
  textColor := js "#000000"
|}.

Definition Handler := State -> State * list Effect.

Definition skip : Handler := fun st => (st, []).

Definition andThen (h1 h2 : Handler) : Handler :=
  fun st =>
    let (s1, e1) := h1 st in
    let (s2, e2) := h2 s1 in
    (s2, e1 ++ e2).

Declare Scope double_handler_scope.
Delimit Scope double_handler_scope with dhandler.
Bind Scope double_handler_scope with Handler.
Notation "h1 ;; h2" := (andThen h1 h2)
  (at level 61, right associativity) : double_handler_scope.
Local Open Scope double_handler_scope.

Definition toast_success (msg : string) : Handler :=
  fun st => (st, [ToastSuccess msg]).
Definition toast_error (msg : string) : Handler :=
  fun st => (st, [ToastError msg]).

Definition updScale (f : double -> double) : Handler := fun st =>
  ({| scale := f (scale st); activeTool := activeTool st;
      textAnnotations := textAnnotations st; blurAreas := blurAreas st;
      isDrawing := isDrawing st; startPoint := startPoint st;
      newText := newText st; fontSize := fontSize st;
      textColor := textColor st |}, []).

Definition setActiveTool (v : Tool) : Handler := fun st =>
  ({| scale := scale st; activeTool := v;
      textAnnotations := textAnnotations st; blurAreas := blurAreas st;
      isDrawing := isDrawing st; startPoint := startPoint st;
      newText := newText st; fontSize := fontSize st;
      textColor := textColor st |}, []).

Definition updTextAnnotations
    (f : list TextAnnotation.t -> list TextAnnotation.t) : Handler :=
  fun st =>
  ({| scale := scale st; activeTool := activeTool st;
      textAnnotations := f (textAnnotations st); blurAreas := blurAreas st;
      isDrawing := isDrawing st; startPoint := startPoint st;
      newText := newText st; fontSize := fontSize st;
      textColor := textColor st |}, []).

Definition updBlurAreas (f : list BlurArea.t -> list BlurArea.t) : Handler :=
  fun st =>
  ({| scale := scale st; activeTool := activeTool st;
      textAnnotations := textAnnotations st; blurAreas := f (blurAreas st);
      isDrawing := isDrawing st; startPoint := startPoint st;
      newText := newText st; fontSize := fontSize st;
      textColor := textColor st |}, []).

Definition setIsDrawing (v : bool) : Handler := fun st =>
  ({| scale := scale st; activeTool := activeTool st;
      textAnnotations := textAnnotations st; blurAreas := blurAreas st;
      isDrawing := v; startPoint := startPoint st;
      newText := newText st; fontSize := fontSize st;
      textColor := textColor st |}, []).

Definition setStartPoint (v : option Point.t) : Handler := fun st =>
  ({| scale := scale st; activeTool := activeTool st;
      textAnnotations := textAnnotations st; blurAreas := blurAreas st;
      isDrawing := isDrawing st; startPoint := v;
      newText := newText st; fontSize := fontSize st;
      textColor := textColor st |}, []).

Definition setNewText (v : jsstring) : Handler := fun st =>
  ({| scale := scale st; activeTool := activeTool st;
      textAnnotations := textAnnotations st; blurAreas := blurAreas st;
      isDrawing := isDrawing st; startPoint := startPoint st;
      newText := v; fontSize := fontSize st;
      textColor := textColor st |}, []).

(** [(event.clientX - rect.left) / scale] and its [y] counterpart
    (lines 95-96, 124-125, 133-134, 170-171). *)
Definition toDocumentSpace (event : MouseEvent) (rect : DOMRect) (s : double)
  : Point.t :=
  Point.mk (div (sub (clientX event) (left rect)) s)
           (div (sub (clientY event) (top rect)) s).

(** [annotation.x * scale], [annotation.y * scale] (lines 567-568,
    585-586): the offsets of an overlay from the canvas element. *)
Definition toScreenSpace (p : Point.t) (s : double) : Point.t :=
  Point.mk (mul (Point.x p) s) (mul (Point.y p) s).

(** Lines 84-116. *)
Definition handleCanvasClick (canvas : option DOMRect) (event : MouseEvent)
    (now : Z) : Handler :=
  fun st =>
    match canvas, activeTool st with
    | Some rect, Text =>
        if negb (truthy (trim (newText st))) then
          toast_error "Please enter text before placing it on the PDF" st
        else
          let p := toDocumentSpace event rect (scale st) in
          let annotation :=
            TextAnnotation.mk (toString now) (Point.x p) (Point.y p)
                              (newText st) (fontSize st) (textColor st) in
          (updTextAnnotations (fun prev => prev ++ [annotation]) ;;
           setNewText (js "") ;;
           toast_success "Text annotation added") st
    | _, _ => skip st
    end.

(** Lines 141-144: [Math.sqrt(Math.pow(annotation.x - x, 2) +
    Math.pow(annotation.y - y, 2))]. *)
Definition distance (a : TextAnnotation.t) (p : Point.t) : double :=
  sqrt (add (pow2 (sub (TextAnnotation.x a) (Point.x p)))
            (pow2 (sub (TextAnnotation.y a) (Point.y p)))).

Definition keepText (p : Point.t) (a : TextAnnotation.t) : bool :=
  gtb (distance a p) (ofZ 30).

(** Lines 153-154. *)
Definition containsPoint (area : BlurArea.t) (p : Point.t) : bool :=
  geb (Point.x p) (BlurArea.x area) &&
  leb (Point.x p) (add (BlurArea.x area) (BlurArea.width area)) &&
  geb (Point.y p) (BlurArea.y area) &&
  leb (Point.y p) (add (BlurArea.y area) (BlurArea.height area)).

Definition keepBlur (p : Point.t) (area : BlurArea.t) : bool :=
  negb (containsPoint area p).

(** Lines 118-163. *)
Definition handleMouseDown (canvas : option DOMRect) (event : MouseEvent)
  : Handler :=
  fun st =>
    match activeTool st with
    | Blur =>
        match canvas with
        | Some rect =>
            let p := toDocumentSpace event rect (scale st) in
            (setStartPoint (Some p) ;; setIsDrawing true) st
        | None => skip st
        end
    | Erase =>
        match canvas with
        | Some rect =>
            let p := toDocumentSpace event rect (scale st) in
            (updTextAnnotations (filter (keepText p)) ;;
             updBlurAreas (filter (keepBlur p)) ;;
             toast_success "Annotation erased") st
        | None => skip st
        end
    | _ => skip st
    end.

(** Lines 165-200. *)
Definition handleMouseUp (canvas : option DOMRect) (event : MouseEvent)
    (now : Z) : Handler :=
  fun st =>
    ((match isDrawing st, startPoint st, canvas, activeTool st with
      | true, Some start, Some rect, Blur =>
          let endP := toDocumentSpace event rect (scale st) in
          let width := abs (sub (Point.x endP) (Point.x start)) in
          let height := abs (sub (Point.y endP) (Point.y start)) in
          let x := min (Point.x start) (Point.x endP) in
          let y := min (Point.y start) (Point.y endP) in
          if gtb width (ofZ 10) && gtb height (ofZ 10) then
            let blurArea := BlurArea.mk (toString now) x y width height in
            updBlurAreas (fun prev => prev ++ [blurArea]) ;;
            toast_success "Blur area added"
          else toast_error "Blur area too small - drag a larger area"
      | _, _, _, _ => skip
      end) ;;
     setIsDrawing false ;;
     setStartPoint None) st.

(** Lines 267-268. *)
Definition zoomIn : Handler :=
  updScale (fun prev => min (add prev (decimal 2 10)) (decimal 30 10)).
Definition zoomOut : Handler :=
  updScale (fun prev => max (sub prev (decimal 2 10)) (decimal 5 10)).

Inductive Event :=
| CanvasClick (canvas : option DOMRect) (event : MouseEvent) (now : Z)
| MouseDown (canvas : option DOMRect) (event : MouseEvent)
| MouseUp (canvas : option DOMRect) (event : MouseEvent) (now : Z)
| SelectTool (tool : Tool)
| TypeText (v : jsstring)
| ZoomIn
| ZoomOut.

Definition handle (e : Event) : Handler :=
  match e with
  | CanvasClick canvas event now => handleCanvasClick canvas event now
  | MouseDown canvas event => handleMouseDown canvas event
  | MouseUp canvas event now => handleMouseUp canvas event now
  | SelectTool tool => setActiveTool tool
  | TypeText v => setNewText v
  | ZoomIn => zoomIn
  | ZoomOut => zoomOut
  end.

Definition step (st : State) (e : Event) : State := fst (handle e st).

Definition run (events : list Event) (st : State) : State :=
  fold_left step events st.

(** A pointer event at whole-pixel client coordinates, and a canvas whose
    bounding rectangle starts at the origin of the viewport. *)
Definition pointer (x y : Z) : MouseEvent :=
  {| clientX := ofZ x; clientY := ofZ y |}.

Definition originRect : DOMRect := {| left := ofZ 0; top := ofZ 0 |}.

End Double.

(** Sample sessions over doubles: the zoom buttons have brought the scale
    to 0.7 (three steps out to the lower bound, one step in) or to 1.2 (one
    step in), and a tool has been selected. *)
Definition zoomTo07 : list Double.Event :=
  [Double.ZoomOut; Double.ZoomOut; Double.ZoomOut; Double.ZoomIn].

Definition blurAt07 : Double.State :=
  Double.run (zoomTo07 ++ [Double.SelectTool Blur]) Double.initialState.

(** A text has been placed by a click at client position (4, 0) at scale
    0.7, and the erase tool selected. *)
Definition eraseAt07 : Double.State :=
  Double.run (zoomTo07 ++
              [Double.SelectTool Text; Double.TypeText (js "note");
               Double.CanvasClick (Some Double.originRect)
                                  (Double.pointer 4 0) 1700000000000;
               Double.SelectTool Erase])
             Double.initialState.

(** A blur area has been dragged from client position (1, 0) to (14, 100)
    at scale 1.2, and the erase tool selected. *)
Definition eraseAt12 : Double.State :=
  Double.run [Double.ZoomIn; Double.SelectTool Blur;
              Double.MouseDown (Some Double.originRect) (Double.pointer 1 0);
              Double.MouseUp (Some Double.originRect) (Double.pointer 14 100)
                             1700000000000;
              Double.SelectTool Erase]
             Double.initialState.

Definition textAt12 : Double.State :=
  Double.run [Double.ZoomIn; Double.SelectTool Text] Double.initialState.

(** Case analysis on the branches of a handler. *)
Ltac break_match :=
  match goal with
  | |- context [match ?d with _ => _ end] => destruct d eqn:?
  end.

Ltac handler_cases :=
  unfold step, handle, handleFileUpload, onDocumentLoadSuccess,
    onDocumentLoadError, handleCanvasClick, handleMouseDown, handleMouseUp,
    removeAnnotation, zoomIn, zoomOut, previousPage, nextPage;
  repeat break_match;
  cbn -[toDocumentSpace Rabs Rmin Rmax keepText keepBlur] in *.

(** * Properties *)

(** ** Basic facts about the embedding *)

Lemma gtb_true_iff (a b : R) : gtb a b = true <-> a > b.
Proof.
  unfold gtb. destruct (Rgt_dec a b); split; intros; try easy.
Qed.

Lemma gtb_false_iff (a b : R) : gtb a b = false <-> a <= b.
Proof.
  unfold gtb. destruct (Rgt_dec a b); split; intros; try easy; lra.
Qed.



Lemma jsstring_eqb_refl (s : jsstring) : jsstring_eqb s s = true.
Proof.
  induction s as [|c s IH]; simpl; [reflexivity|].
  now rewrite N.eqb_refl, IH.
Qed.

Lemma trimStart_nil_iff (s : jsstring) :
  trimStart s = [] <-> forall c, In c s -> is_whitespace c = true.
Proof.
  induction s as [|c s IH]; simpl.
  - split; [intros _ d []|reflexivity].
  - destruct (is_whitespace c) eqn:Hc.
    + rewrite IH. split.
      * intros H d [<-|Hd]; auto.
      * intros H d Hd. apply H. now right.
    + split; [discriminate|].
      intros H. specialize (H c (or_introl eq_refl)). congruence.
Qed.

Lemma trimStart_head (s : jsstring) (c : code_unit) (r : jsstring) :
  trimStart s = c :: r -> is_whitespace c = false.
Proof.
  induction s as [|d s IH]; simpl; [discriminate|].
  destruct (is_whitespace d) eqn:Hd; [exact IH|].
  intros H. injection H as -> _. exact Hd.
Qed.

Lemma trimEnd_nil_iff (s : jsstring) :
  trimEnd s = [] <-> forall c, In c s -> is_whitespace c = true.
Proof.
  unfold trimEnd. split.
  - intros H c Hc.
    assert (Hr : trimStart (rev s) = []).
    { apply (f_equal (@rev _)) in H. now rewrite rev_involutive in H. }
    apply (proj1 (trimStart_nil_iff _) Hr). now apply -> in_rev.
  - intros H.
    assert (Hr : trimStart (rev s) = []).
    { apply trimStart_nil_iff. intros c Hc. apply H. now apply in_rev. }
    now rewrite Hr.
Qed.

(** A string is blank for the text tool exactly when all of its characters
    are white space. *)
Lemma trim_falsy_iff (s : jsstring) :
  truthy (trim s) = false <-> forall c, In c s -> is_whitespace c = true.
Proof.
  unfold trim. split.
  - intros H.
    assert (Ht : trimEnd (trimStart s) = []) by
      (destruct (trimEnd (trimStart s)); [reflexivity|discriminate]).
    rewrite trimEnd_nil_iff in Ht.
    apply trimStart_nil_iff.
    destruct (trimStart s) as [|c r] eqn:Hs; [reflexivity|].
    pose proof (trimStart_head _ _ _ Hs) as Hc.
    specialize (Ht c (or_introl eq_refl)). congruence.
  - intros H. apply trimStart_nil_iff in H. rewrite H. reflexivity.
Qed.

Lemma trim_truthy_iff (s : jsstring) :
  truthy (trim s) = true <-> exists c, In c s /\ is_whitespace c = false.
Proof.
  split.
  - intros H.
    destruct (existsb (fun c => negb (is_whitespace c)) s) eqn:Hex.
    + apply existsb_exists in Hex as [c [Hin Hc]].
      exists c. split; [assumption|now apply negb_true_iff].
    + assert (Hall : forall c, In c s -> is_whitespace c = true).
      { intros c Hin. destruct (is_whitespace c) eqn:Hc; [reflexivity|].
        assert (Htrue : existsb (fun c => negb (is_whitespace c)) s = true).
        { apply existsb_exists. exists c. now rewrite Hc. }
        congruence. }
      apply trim_falsy_iff in Hall. congruence.
  - intros [c [Hin Hc]].
    destruct (truthy (trim s)) eqn:Ht; [reflexivity|].
    rewrite trim_falsy_iff in Ht. specialize (Ht c Hin). congruence.
Qed.

(** ** Loading a document *)

(** C5.  Accepting the selection of a file whose media type is
    [application/pdf] empties the text annotations and the blur areas and
    sets the current page to 1, whatever the state before; the file becomes
    the session's document.  The reset is still in place when the rendering
    service then reports the document as loaded. *)
Theorem new_document_resets_session (st : State) (f : File) (n : Z) :
  file_type f = js "application/pdf" ->
  let st' := fst (handleFileUpload (Some f) st) in
  let st'' := run [FileUpload (Some f); DocumentLoadSuccess n] st in
  (textAnnotations st' = [] /\ blurAreas st' = [] /\ currentPage st' = 1%Z /\
   pdfFile st' = Some f) /\
  (textAnnotations st'' = [] /\ blurAreas st'' = [] /\ currentPage st'' = 1%Z).
Proof.
  intros Hty. unfold run, step. simpl fold_left.
  unfold handleFileUpload. rewrite Hty, jsstring_eqb_refl.
  repeat split.
Qed.

Lemma new_document_resets_session_witness :
  textAnnotations (fst (handleFileUpload (Some samplePdf) readyState)) = [] /\
  blurAreas (fst (handleFileUpload (Some samplePdf) readyState)) = [] /\
  currentPage (fst (handleFileUpload (Some samplePdf) readyState)) = 1%Z.
Proof.
  destruct (new_document_resets_session readyState samplePdf 3 eq_refl)
    as [[H1 [H2 [H3 _]]] _].
  repeat split; assumption.
Defined.

(** ** The text tool *)

(** C8.  A click on the canvas in text mode while the pending text is empty
    leaves the whole state as it was, so no annotation is created and the
    tool is still Text, and raises exactly one notification, the
    validation error. *)
Theorem empty_text_click_is_rejected
    (st : State) (rect : DOMRect) (event : MouseEvent) (now : Z) :
  activeTool st = Text ->
  newText st = js "" ->
  handleCanvasClick (Some rect) event now st =
    (st, [ToastError "Please enter text before placing it on the PDF"]) /\
  textAnnotations (fst (handleCanvasClick (Some rect) event now st)) =
    textAnnotations st /\
  activeTool (fst (handleCanvasClick (Some rect) event now st)) = Text.
Proof.
  intros Htool Htext.
  assert (H : handleCanvasClick (Some rect) event now st =
              (st, [ToastError "Please enter text before placing it on the PDF"])).
  { unfold handleCanvasClick. rewrite Htool, Htext. reflexivity. }
  rewrite H. simpl. auto.
Qed.

Lemma empty_text_click_is_rejected_witness :
  handleCanvasClick (Some originRect) (pointer 100 100) 1700000000000
      textState =
    (textState,
     [ToastError "Please enter text before placing it on the PDF"]).
Proof.
  exact (proj1 (empty_text_click_is_rejected
                  textState
                  originRect (pointer 100 100) 1700000000000
                  eq_refl eq_refl)).
Defined.

(** C10.  A pending text made of white space only is rejected like the
    empty one: the click changes nothing in the state (no annotation, the
    pending text is kept), and with the canvas present in text mode the
    validation error is raised.  Conversely a click that changes the
    annotations was made with a pending text that has a character which is
    not white space, and with such a text the click in text mode does place
    the annotation and clears the pending text. *)
Theorem blank_text_click_is_rejected
    (st : State) (canvas : option DOMRect) (event : MouseEvent) (now : Z) :
  ((forall c, In c (newText st) -> is_whitespace c = true) ->
   fst (handleCanvasClick canvas event now st) = st /\
   (forall rect, canvas = Some rect -> activeTool st = Text ->
      snd (handleCanvasClick canvas event now st) =
        [ToastError "Please enter text before placing it on the PDF"])) /\
  (textAnnotations (fst (handleCanvasClick canvas event now st)) <>
     textAnnotations st ->
   exists c, In c (newText st) /\ is_whitespace c = false) /\
  ((exists c, In c (newText st) /\ is_whitespace c = false) ->
   forall rect, canvas = Some rect -> activeTool st = Text ->
     let p := toDocumentSpace event rect (scale st) in
     let st' := fst (handleCanvasClick canvas event now st) in
     textAnnotations st' =
       textAnnotations st ++
       [TextAnnotation.mk (toString now) (Point.x p) (Point.y p)
                          (newText st) (fontSize st) (textColor st)] /\
     newText st' = js "").
Proof.
  split; [|split].
  - intros Hws. apply trim_falsy_iff in Hws.
    unfold handleCanvasClick.
    destruct canvas as [rect|]; destruct (activeTool st) eqn:Htool;
      try (split; [reflexivity|intros; discriminate]).
    rewrite Hws. split; [reflexivity|]. intros. reflexivity.
  - intros Hchg.
    apply trim_truthy_iff.
    destruct (truthy (trim (newText st))) eqn:Ht; [reflexivity|].
    exfalso. apply Hchg.
    unfold handleCanvasClick.
    destruct canvas; destruct (activeTool st); try reflexivity.
    rewrite Ht. reflexivity.
  - intros Hex rect -> Htool. apply trim_truthy_iff in Hex.
    unfold handleCanvasClick. rewrite Htool, Hex. simpl. auto.
Qed.

Lemma blank_text_click_is_rejected_witness :
  fst (handleCanvasClick (Some originRect) (pointer 100 100) 1700000000000
         (run [TypeText (js "  ")] textState)) =
  run [TypeText (js "  ")] textState.
Proof.
  refine (proj1 (proj1 (blank_text_click_is_rejected
                   (run [TypeText (js "  ")] textState)
                   (Some originRect) (pointer 100 100) 1700000000000) _)).
  intros c Hc. simpl in Hc.
  destruct Hc as [<-|[<-|[]]]; reflexivity.
Defined.

(** ** The blur tool *)

Section BlurGesture.

Variable st : State.
Variables (rect1 rect2 : DOMRect) (down up : MouseEvent) (now : Z).

Let p1 := toDocumentSpace down rect1 (scale st).
Let p2 := toDocumentSpace up rect2 (scale st).
Let w := Rabs (Point.x p2 - Point.x p1).
Let h := Rabs (Point.y p2 - Point.y p1).
Let area :=
  BlurArea.mk (toString now)
              (Rmin (Point.x p1) (Point.x p2))
              (Rmin (Point.y p1) (Point.y p2)) w h.
Let st' := run [MouseDown (Some rect1) down; MouseUp (Some rect2) up now] st.

(** What the press and the release of a blur drag leave in the state. *)
Lemma blur_gesture_result :
  activeTool st = Blur ->
  blurAreas st' =
    (if gtb w 10 && gtb h 10 then blurAreas st ++ [area] else blurAreas st)
  /\ isDrawing st' = false /\ startPoint st' = None.
Proof.
  intros Htool. subst st'. unfold run, step. simpl fold_left.
  unfold handleMouseDown. rewrite Htool. cbn [fst].
  unfold handleMouseUp, andThen; cbn -[toDocumentSpace Rabs Rmin gtb].
  rewrite Htool.
  fold p1 p2. fold w h.
  destruct (gtb w 10 && gtb h 10); cbn; repeat split.
Qed.


End BlurGesture.


(** ** The erase tool *)

Lemma filter_all_kept {A : Type} (f : A -> bool) (l : list A) :
  (forall a, In a l -> f a = true) -> filter f l = l.
Proof.
  induction l as [|a l IH]; intros H; simpl; [reflexivity|].
  rewrite (H a (or_introl eq_refl)). f_equal. apply IH.
  intros b Hb. apply H. now right.
Qed.





(** ** Export *)

(** Reading back a colour channel written as two hexadecimal digits. *)
Lemma parseInt16_hex2 (n : Z) :
  (0 <= n < 256)%Z -> parseInt16 (hex2 n) = Some n.
Proof.
  intros Hn.
  assert (Hall : forallb
            (fun k => match parseInt16 (hex2 (Z.of_nat k)) with
                      | Some m => Z.eqb m (Z.of_nat k)
                      | None => false
                      end) (seq 0 256) = true) by (vm_compute; reflexivity).
  rewrite forallb_forall in Hall.
  specialize (Hall (Z.to_nat n)).
  rewrite Z2Nat.id in Hall by lia.
  assert (Hin : In (Z.to_nat n) (seq 0 256)) by (apply in_seq; lia).
  specialize (Hall Hin).
  destruct (parseInt16 (hex2 n)) as [m|]; [|discriminate].
  apply Z.eqb_eq in Hall. now subst.
Qed.

Lemma channels_of_hexColor (r g b : Z) :
  (0 <= r < 256)%Z -> (0 <= g < 256)%Z -> (0 <= b < 256)%Z ->
  channel (hexColor r g b) 1 3 = Some (IZR r / 255) /\
  channel (hexColor r g b) 3 5 = Some (IZR g / 255) /\
  channel (hexColor r g b) 5 7 = Some (IZR b / 255).
Proof.
  intros Hr Hg Hb. unfold channel.
  change (slice 1 3 (hexColor r g b)) with (hex2 r).
  change (slice 3 5 (hexColor r g b)) with (hex2 g).
  change (slice 5 7 (hexColor r g b)) with (hex2 b).
  now rewrite !parseInt16_hex2 by assumption.
Qed.



(** ** Coordinate mapping *)




(** ** Tool selection and the pending drag *)












(** ** Failure of a load *)

(** C7, as the code has it.  When the rendering service rejects the
    document, the loading flag is cleared (the upload control is enabled
    again, so the user can retry) and the failure is notified; every other
    part of the state is kept, the selected file included.  When the
    failure follows the selection of the file directly, the annotation
    collections are the empty ones the selection left and the page is 1. *)
Theorem load_failure_keeps_file_and_clears_loading (st : State) (f : File) :
  file_type f = js "application/pdf" ->
  let st' := fst (onDocumentLoadError st) in
  let st2 := run [FileUpload (Some f); DocumentLoadError] st in
  (pdfLoading st' = false /\
   snd (onDocumentLoadError st) =
     [ToastError "Failed to load PDF file. Please try again."] /\
   pdfFile st' = pdfFile st /\ numPages st' = numPages st /\
   currentPage st' = currentPage st /\
   textAnnotations st' = textAnnotations st /\
   blurAreas st' = blurAreas st /\
   activeTool st' = activeTool st /\ scale st' = scale st /\
   isDrawing st' = isDrawing st /\ startPoint st' = startPoint st /\
   newText st' = newText st /\ fontSize st' = fontSize st /\
   textColor st' = textColor st) /\
  (pdfLoading st2 = false /\ pdfFile st2 = Some f /\
   textAnnotations st2 = [] /\ blurAreas st2 = [] /\ currentPage st2 = 1%Z).
Proof.
  intros Hty. split.
  - repeat split.
  - unfold run, step. cbn [fold_left handle].
    unfold handleFileUpload. rewrite Hty, jsstring_eqb_refl.
    repeat split.
Qed.

Lemma load_failure_keeps_file_and_clears_loading_witness :
  pdfLoading (run [FileUpload (Some samplePdf); DocumentLoadError]
                  initialState) = false /\
  pdfFile (run [FileUpload (Some samplePdf); DocumentLoadError]
               initialState) = Some samplePdf.
Proof.
  destruct (load_failure_keeps_file_and_clears_loading
              initialState samplePdf eq_refl) as [_ [Hflag [Hfile _]]].
  split; assumption.
Defined.

(** After a failed load the session still holds the rejected file. *)
Lemma load_failure_retains_document :
  pdfFile (run [FileUpload (Some samplePdf); DocumentLoadError] initialState)
  <> None.
Proof. cbn. discriminate. Qed.

(** ** Identifiers *)

Lemma js_inj (s t : string) : js s = js t -> s = t.
Proof.
  unfold js. intros H.
  rewrite <- (string_of_list_ascii_of_string s).
  rewrite <- (string_of_list_ascii_of_string t).
  f_equal.
  revert H. generalize (list_ascii_of_string s) (list_ascii_of_string t).
  induction l as [|a l IH]; intros [|b l'] H; try discriminate; auto.
  simpl in H. injection H as Hab Hl.
  f_equal; [|now apply IH].
  now rewrite <- (ascii_N_embedding a), <- (ascii_N_embedding b), Hab.
Qed.

Lemma to_int_proper (n : Z) :
  Z.to_int n <> Decimal.Pos Decimal.Nil /\
  Z.to_int n <> Decimal.Neg Decimal.Nil.
Proof.
  destruct n as [|p|p]; simpl; split; try discriminate;
    intros H; injection H as H;
    now apply DecimalPos.Unsigned.to_uint_nonnil in H.
Qed.

(** The identifiers made from two different clock readings differ. *)
Lemma toString_inj (n m : Z) : toString n = toString m -> n = m.
Proof.
  unfold toString. intros H. apply js_inj in H.
  apply DecimalZ.to_int_inj.
  destruct (to_int_proper n) as [Hn1 Hn2].
  destruct (to_int_proper m) as [Hm1 Hm2].
  pose proof (NilZero.isi _ Hn1 Hn2) as Hn.
  pose proof (NilZero.isi _ Hm1 Hm2) as Hm.
  rewrite H in Hn. congruence.
Qed.

(** C9 on the code: two text annotations placed at the same clock reading
    are different annotations with the same identifier. *)
Theorem same_clock_reading_same_id :
  exists a1 a2,
    textAnnotations
      (run [TypeText (js "first");
            CanvasClick (Some originRect) (pointer 10 10) 1700000000000;
            TypeText (js "second");
            CanvasClick (Some originRect) (pointer 200 200) 1700000000000]
           textState) = [a1; a2] /\
    a1 <> a2 /\
    TextAnnotation.id a1 = TextAnnotation.id a2.
Proof.
  eexists. eexists. split; [reflexivity|].
  split; [|reflexivity].
  intros H. apply (f_equal TextAnnotation.text) in H. discriminate H.
Qed.

(** * Further properties of the editor *)

(** ** Frame lemmas: what a single event can change *)

Lemma jsstring_eqb_eq (a b : jsstring) : jsstring_eqb a b = true <-> a = b.
Proof.
  revert b. induction a as [|c a IH]; intros [|d b]; simpl;
    try (split; [discriminate|discriminate]); try (split; reflexivity).
  rewrite andb_true_iff, N.eqb_eq, IH. split.
  - intros [-> ->]. reflexivity.
  - intros H. injection H as -> ->. auto.
Qed.


Lemma run_cons (e : Event) (events : list Event) (st : State) :
  run (e :: events) st = run events (step st e).
Proof. reflexivity. Qed.

Lemma scale_step (st : State) (e : Event) :
  scale (step st e) =
    match e with
    | ZoomIn => Rmin (scale st + 0.2) 3.0
    | ZoomOut => Rmax (scale st - 0.2) 0.5
    | _ => scale st
    end.
Proof.
  destruct e; handler_cases; reflexivity.
Qed.

Lemma pdfFile_step (st : State) (e : Event) :
  pdfFile (step st e) = pdfFile st \/
  exists f, e = FileUpload (Some f) /\
            file_type f = js "application/pdf" /\
            pdfFile (step st e) = Some f.
Proof.
  destruct e; handler_cases; auto.
  right. exists f. repeat split. f_equal.
  destruct f as [nm ty bytes]. simpl in *.
  apply jsstring_eqb_eq in Heqb. now subst.
Qed.

Lemma isDrawing_step (st : State) (e : Event) :
  isMouseDown e = false -> isDrawing st = false ->
  isDrawing (step st e) = false.
Proof.
  intros He Hd. destruct e; try discriminate; handler_cases; auto.
Qed.

(** ** Zoom *)

(** X1.  The zoom factor never leaves the interval [0.5, 3.0]: whatever
    the events, a scale that is in the interval stays in it (so the
    handlers never divide by zero). *)
Theorem scale_stays_in_range (events : list Event) (st : State) :
  0.5 <= scale st <= 3.0 ->
  0.5 <= scale (run events st) <= 3.0.
Proof.
  revert st. induction events as [|e events IH]; intros st Hs.
  - exact Hs.
  - rewrite run_cons. apply IH. rewrite scale_step.
    destruct e; try exact Hs.
    + unfold Rmin. destruct (Rle_dec _ _); lra.
    + unfold Rmax. destruct (Rle_dec _ _); lra.
Qed.

Lemma scale_stays_in_range_witness :
  0.5 <= scale (run [ZoomIn; ZoomIn; ZoomOut] initialState) <= 3.0.
Proof.
  apply (scale_stays_in_range [ZoomIn; ZoomIn; ZoomOut] initialState).
  cbn. lra.
Defined.

(** ** The selected file *)

(** X2.  A file selection that is missing or whose media type is not
    [application/pdf] is refused: the state is unchanged and the only
    notification is the error.  *)
Theorem invalid_file_is_refused (st : State) (file : option File) :
  (forall f, file = Some f -> file_type f <> js "application/pdf") ->
  handleFileUpload file st =
    (st, [ToastError "Please select a valid PDF file"]).
Proof.
  intros Hbad. unfold handleFileUpload.
  destruct file as [f|]; [|reflexivity].
  destruct (jsstring_eqb (file_type f) (js "application/pdf")) eqn:Heq;
    [|reflexivity].
  apply jsstring_eqb_eq in Heq. now destruct (Hbad f eq_refl).
Qed.

Lemma invalid_file_is_refused_witness :
  handleFileUpload
    (Some {| file_name := js "notes.txt"; file_type := js "text/plain";
             file_bytes := [] |}) readyState =
  (readyState, [ToastError "Please select a valid PDF file"]).
Proof.
  apply invalid_file_is_refused.
  intros f Hf. injection Hf as <-. discriminate.
Defined.

(** X3.  Once a file is selected the session never goes back to having
    none: no event clears [pdfFile], and the file changes only when
    another PDF is selected. *)
Theorem selected_file_is_never_cleared
    (events : list Event) (st : State) (f : File) :
  pdfFile st = Some f ->
  pdfFile (run events st) <> None /\
  (forallb (fun e => match e with FileUpload _ => false | _ => true end)
           events = true ->
   pdfFile (run events st) = Some f).
Proof.
  revert st f. induction events as [|e events IH]; intros st f Hf.
  - cbn. split; [congruence|auto].
  - rewrite run_cons.
    destruct (pdfFile_step st e) as [Hsame|[g [He [_ Hg]]]].
    + rewrite Hf in Hsame. destruct (IH _ _ Hsame) as [H1 H2].
      split; [exact H1|].
      intros Hall. simpl in Hall. apply andb_true_iff in Hall as [_ Hall].
      now apply H2.
    + destruct (IH _ _ Hg) as [H1 _].
      split; [exact H1|].
      intros Hall. subst e. discriminate.
Qed.

Lemma selected_file_is_never_cleared_witness :
  pdfFile (run [DocumentLoadError; SelectTool Text; ZoomIn] readyState)
  = Some samplePdf.
Proof.
  apply (selected_file_is_never_cleared
           [DocumentLoadError; SelectTool Text; ZoomIn] readyState samplePdf);
    reflexivity.
Defined.

(** ** Invariants of the sessions the page allows *)

Lemma page_index_step (st : State) (e : Event) :
  enabled st e = true ->
  (1 <= currentPage st)%Z /\
  (currentPage st = 1%Z \/ (currentPage st <= numPages st)%Z) ->
  (1 <= currentPage (step st e))%Z /\
  (currentPage (step st e) = 1%Z \/
   (currentPage (step st e) <= numPages (step st e))%Z).
Proof.
  intros He Hinv. unfold enabled in He.
  destruct e; handler_cases; try exact Hinv; lia.
Qed.

(** X4.  Through the controls the page offers, the current page never
    drops below 1 and never passes the page count (it is 1 while the count
    is still unknown), whatever page counts the rendering service reports. *)
Theorem page_index_stays_in_range (events : list Event) (st : State) :
  admissible st events = true ->
  (1 <= currentPage st)%Z /\
  (currentPage st = 1%Z \/ (currentPage st <= numPages st)%Z) ->
  (1 <= currentPage (run events st))%Z /\
  (currentPage (run events st) = 1%Z \/
   (currentPage (run events st) <= numPages (run events st))%Z).
Proof.
  revert st. induction events as [|e events IH]; intros st Hadm Hinv.
  - exact Hinv.
  - simpl in Hadm. apply andb_true_iff in Hadm as [He Hadm].
    rewrite run_cons. apply IH; [exact Hadm|].
    now apply page_index_step.
Qed.

Lemma page_index_stays_in_range_witness :
  (1 <= currentPage
          (run [FileUpload (Some samplePdf); DocumentLoadSuccess 3;
                NextPage; NextPage; PreviousPage] initialState))%Z.
Proof.
  refine (proj1 (page_index_stays_in_range
                   [FileUpload (Some samplePdf); DocumentLoadSuccess 3;
                    NextPage; NextPage; PreviousPage] initialState
                   eq_refl _)).
  cbn. lia.
Defined.

(** X5.  Until a PDF has been accepted nothing can be edited: in a session
    that starts in the initial state and goes through the controls the page
    offers, a state without a file is the initial state (no annotations,
    the Select tool, nothing pending). *)
Theorem no_file_means_initial_state (events : list Event) :
  admissible initialState events = true ->
  pdfFile (run events initialState) = None ->
  run events initialState = initialState.
Proof.
  assert (Hstep : forall st e,
             enabled st e = true ->
             (pdfFile st = None -> st = initialState) ->
             pdfFile (step st e) = None -> step st e = initialState).
  { intros st e He Hinv Hnone.
    destruct (pdfFile st) as [f|] eqn:Hf.
    - exfalso.
      destruct (pdfFile_step st e) as [Hsame|[g [_ [_ Hg]]]]; congruence.
    - rewrite (Hinv eq_refl) in *. clear Hinv Hf.
      destruct e; try discriminate He;
        try (destruct type; discriminate He).
      unfold step, handle, handleFileUpload in *.
      destruct file as [f|]; [|reflexivity].
      destruct (jsstring_eqb (file_type f) (js "application/pdf"));
        [discriminate Hnone|reflexivity]. }
  assert (Hrun : forall evs st,
             admissible st evs = true ->
             (pdfFile st = None -> st = initialState) ->
             pdfFile (run evs st) = None -> run evs st = initialState).
  { induction evs as [|e evs IH]; intros st Hadm Hinv.
    - exact Hinv.
    - simpl in Hadm. apply andb_true_iff in Hadm as [He Hadm].
      rewrite run_cons. apply IH; [exact Hadm|].
      now apply Hstep. }
  intros Hadm. apply Hrun; auto.
Qed.

Lemma no_file_means_initial_state_witness :
  run [FileUpload None;
       FileUpload (Some {| file_name := js "notes.txt";
                           file_type := js "text/plain";
                           file_bytes := [] |})] initialState
  = initialState.
Proof.
  apply no_file_means_initial_state; reflexivity.
Defined.

(** ** Where annotations come from *)

(** A blur area that an event adds comes from a pointer-up that ends a
    pending drag in blur mode, and is larger than 10 in both directions. *)
Lemma blurAreas_step_new (st : State) (e : Event) (b : BlurArea.t) :
  In b (blurAreas (step st e)) ->
  In b (blurAreas st) \/
  (isDrawing st = true /\ activeTool st = Blur /\
   BlurArea.width b > 10 /\ BlurArea.height b > 10 /\
   exists now, clock e = [now] /\ BlurArea.id b = toString now).
Proof.
  destruct e; handler_cases; intros Hb; auto;
    try (left; now apply filter_In in Hb);
    try contradiction.
  apply in_app_or in Hb as [Hb|[<-|[]]]; [now left|].
  right. cbn.
  match goal with
  | H : (gtb _ _ && gtb _ _)%bool = true |- _ =>
      apply andb_true_iff in H as [Hw Hh]
  end.
  apply gtb_true_iff in Hw, Hh.
  repeat split; auto. now exists now.
Qed.

(** A text annotation that an event adds comes from a click in text mode
    and carries the pending text, which is not blank. *)
Lemma textAnnotations_step_new (st : State) (e : Event) (a : TextAnnotation.t) :
  In a (textAnnotations (step st e)) ->
  In a (textAnnotations st) \/
  (activeTool st = Text /\
   TextAnnotation.text a = newText st /\
   truthy (trim (newText st)) = true /\
   TextAnnotation.fontSize a = fontSize st /\
   TextAnnotation.color a = textColor st /\
   exists now, clock e = [now] /\ TextAnnotation.id a = toString now).
Proof.
  destruct e; handler_cases; intros Ha; auto;
    try (left; now apply filter_In in Ha);
    try contradiction.
  apply in_app_or in Ha as [Ha|[<-|[]]]; [now left|].
  right. cbn.
  match goal with
  | H : negb _ = false |- _ => apply negb_false_iff in H
  end.
  repeat split; auto. now exists now.
Qed.

(** X6.  Every blur area the editor ever holds is larger than 10 in both
    directions, hence of positive width and height: areas with that
    property are all a run can lead to. *)
Theorem blur_areas_stay_large (events : list Event) (st : State) :
  (forall b, In b (blurAreas st) ->
             BlurArea.width b > 10 /\ BlurArea.height b > 10) ->
  forall b, In b (blurAreas (run events st)) ->
            BlurArea.width b > 10 /\ BlurArea.height b > 10.
Proof.
  revert st. induction events as [|e events IH]; intros st Hinv.
  - exact Hinv.
  - rewrite run_cons. apply IH.
    intros b Hb.
    destruct (blurAreas_step_new st e b Hb) as [Hold|(_ & _ & Hw & Hh & _)];
      auto.
Qed.

Lemma blur_areas_stay_large_witness :
  Forall (fun b => BlurArea.width b > 10 /\ BlurArea.height b > 10)
    (blurAreas
       (run [MouseUp (Some originRect) (pointer 150 120) 1700000000000;
             MouseDown (Some originRect) (pointer 10 10);
             MouseUp (Some originRect) (pointer 15 300) 1700000000001]
            draggingState)).
Proof.
  apply Forall_forall.
  apply blur_areas_stay_large.
  intros b Hb. destruct Hb.
Defined.

(** X7.  Every text annotation the editor ever holds has a text with a
    character that is not white space. *)
Theorem text_annotations_are_never_blank (events : list Event) (st : State) :
  (forall a, In a (textAnnotations st) ->
             exists c, In c (TextAnnotation.text a) /\ is_whitespace c = false) ->
  forall a, In a (textAnnotations (run events st)) ->
            exists c, In c (TextAnnotation.text a) /\ is_whitespace c = false.
Proof.
  revert st. induction events as [|e events IH]; intros st Hinv.
  - exact Hinv.
  - rewrite run_cons. apply IH.
    intros a Ha.
    destruct (textAnnotations_step_new st e a Ha)
      as [Hold|(_ & Htext & Htrim & _)]; auto.
    rewrite Htext. now apply trim_truthy_iff.
Qed.

Lemma text_annotations_are_never_blank_witness :
  Forall (fun a => exists c, In c (TextAnnotation.text a) /\
                             is_whitespace c = false)
    (textAnnotations
       (run [TypeText (js " x ");
             CanvasClick (Some originRect) (pointer 5 5) 1700000000000;
             TypeText (js "   ");
             CanvasClick (Some originRect) (pointer 9 9) 1700000000001]
            textState)).
Proof.
  apply Forall_forall.
  apply text_annotations_are_never_blank.
  intros a Ha. destruct Ha.
Defined.

(** X8.  A blur area is created only by the pointer-up that follows a
    pointer-down: from a state with no drag pending, events among which
    there is no pointer-down add no blur area, whatever tool is selected
    and however many pointer-ups arrive. *)
Theorem no_blur_area_without_pointer_down (events : list Event) (st : State) :
  isDrawing st = false ->
  forallb (fun e => negb (isMouseDown e)) events = true ->
  forall b, In b (blurAreas (run events st)) -> In b (blurAreas st).
Proof.
  revert st. induction events as [|e events IH]; intros st Hd Hev b Hb.
  - exact Hb.
  - simpl in Hev. apply andb_true_iff in Hev as [He Hev].
    apply negb_true_iff in He.
    rewrite run_cons in Hb.
    apply (IH (step st e) (isDrawing_step st e He Hd) Hev) in Hb.
    destruct (blurAreas_step_new st e b Hb) as [Hold|(Hdraw & _)];
      [exact Hold|congruence].
Qed.

Lemma no_blur_area_without_pointer_down_witness :
  Forall (fun b => In b (blurAreas blurState))
    (blurAreas
       (run [MouseUp (Some originRect) (pointer 150 120) 1700000000000;
             SelectTool Select; SelectTool Blur;
             MouseUp (Some originRect) (pointer 300 300) 1700000000001]
            blurState)).
Proof.
  apply Forall_forall.
  apply no_blur_area_without_pointer_down; reflexivity.
Defined.

(** ** What the tools leave alone *)

(** X9.  The collections change only through their own tools.  The text
    annotations can change only on a file selection, a click in text mode,
    a pointer-down in erase mode or the removal of a text annotation; the
    blur areas only on a file selection, a pointer-up in blur mode, a
    pointer-down in erase mode or the removal of a blur area.  In
    particular the pointer events of the Select tool change neither and
    raise no notification. *)
Theorem collections_change_only_through_their_tools (st : State) (e : Event) :
  (textAnnotations (step st e) <> textAnnotations st ->
   match e with
   | FileUpload _ | RemoveAnnotation _ KText => True
   | CanvasClick _ _ _ => activeTool st = Text
   | MouseDown _ _ => activeTool st = Erase
   | _ => False
   end) /\
  (blurAreas (step st e) <> blurAreas st ->
   match e with
   | FileUpload _ | RemoveAnnotation _ KBlur => True
   | MouseUp _ _ _ => activeTool st = Blur
   | MouseDown _ _ => activeTool st = Erase
   | _ => False
   end) /\
  (activeTool st = Select ->
   match e with
   | CanvasClick _ _ _ | MouseDown _ _ | MouseUp _ _ _ =>
       textAnnotations (step st e) = textAnnotations st /\
       blurAreas (step st e) = blurAreas st /\
       snd (handle e st) = []
   | _ => True
   end).
Proof.
  destruct e; handler_cases;
    (split; [|split]); intros H; auto;
    try (exfalso; apply H; reflexivity); try discriminate H.
Qed.

Lemma filter_idem {A : Type} (f : A -> bool) (l : list A) :
  filter f (filter f l) = filter f l.
Proof.
  apply filter_all_kept. intros a Ha. now apply filter_In in Ha.
Qed.

(** X10.  Pressing again at the same place changes nothing more: a second
    pointer-down with the same event and canvas leaves the state the first
    one produced, for every tool (a second erase finds nothing left to
    remove, a second press in blur mode records the same start point). *)
Theorem pointer_down_is_idempotent
    (st : State) (canvas : option DOMRect) (event : MouseEvent) :
  step (step st (MouseDown canvas event)) (MouseDown canvas event) =
  step st (MouseDown canvas event).
Proof.
  unfold step, handle, handleMouseDown.
  destruct (activeTool st) eqn:Htool; destruct canvas as [rect|];
    cbn -[toDocumentSpace keepText keepBlur]; rewrite ?Htool;
    cbn -[toDocumentSpace keepText keepBlur]; try reflexivity.
  now rewrite !filter_idem.
Qed.

(** ** Identifiers *)

Lemma filter_const_true {A : Type} (l : list A) :
  filter (fun _ => true) l = l.
Proof. apply filter_all_kept. reflexivity. Qed.

Lemma filter_const_false {A : Type} (l : list A) :
  filter (fun _ => false) l = [].
Proof. induction l; simpl; auto. Qed.

(** An event either thins the two collections out or appends one
    annotation whose identifier is the decimal numeral of the event's clock
    reading. *)
Lemma step_shape (st : State) (e : Event) :
  (exists p q,
      textAnnotations (step st e) = filter p (textAnnotations st) /\
      blurAreas (step st e) = filter q (blurAreas st)) \/
  (exists now a,
      clock e = [now] /\ TextAnnotation.id a = toString now /\
      textAnnotations (step st e) = textAnnotations st ++ [a] /\
      blurAreas (step st e) = blurAreas st) \/
  (exists now b,
      clock e = [now] /\ BlurArea.id b = toString now /\
      textAnnotations (step st e) = textAnnotations st /\
      blurAreas (step st e) = blurAreas st ++ [b]).
Proof.
  destruct e; handler_cases;
    try (left; eexists; eexists; split;
         first [ reflexivity
               | symmetry; apply filter_const_true
               | symmetry; apply filter_const_false ]).
  - right. left. eexists. eexists. repeat split; reflexivity.
  - right. right. eexists. eexists. repeat split; reflexivity.
Qed.

Lemma In_map_filter_app {A C B : Type} (f : A -> B) (g : C -> B)
    (p : A -> bool) (q : C -> bool) (l : list A) (m : list C) (x : B) :
  In x (map f (filter p l) ++ map g (filter q m)) ->
  In x (map f l ++ map g m).
Proof.
  intros H. apply in_or_app. apply in_app_or in H as [H|H];
    [left|right]; apply in_map_iff in H as [a [<- Ha]];
    apply in_map; now apply filter_In in Ha.
Qed.

Lemma NoDup_map_filter_app {A C B : Type} (f : A -> B) (g : C -> B)
    (p : A -> bool) (q : C -> bool) (l : list A) (m : list C) :
  NoDup (map f l ++ map g m) ->
  NoDup (map f (filter p l) ++ map g (filter q m)).
Proof.
  induction l as [|a l IH]; simpl.
  - induction m as [|b m IHm]; simpl; intros H; [constructor|].
    inversion H as [|? ? Hnot Hrest]; subst.
    destruct (q b); simpl; [|now apply IHm].
    constructor; [|now apply IHm].
    intros Hin. apply Hnot.
    now apply (In_map_filter_app g g (fun _ => false) q [] m).
  - intros H. inversion H as [|? ? Hnot Hrest]; subst.
    destruct (p a); simpl; [|now apply IH].
    constructor; [|now apply IH].
    intros Hin. apply Hnot. now apply In_map_filter_app in Hin.
Qed.

Lemma ascendingFrom_weaken (lo lo' : Z) (l : list Z) :
  (lo <= lo')%Z -> ascendingFrom lo' l = true -> ascendingFrom lo l = true.
Proof.
  destruct l as [|t l]; simpl; [reflexivity|].
  intros Hlo H. apply andb_true_iff in H as [Ht Hl].
  apply andb_true_iff. split; [lia|exact Hl].
Qed.

Lemma clock_cases (e : Event) :
  clock e = [] \/ exists now, clock e = [now].
Proof. destruct e; simpl; eauto. Qed.

Lemma identifiers_step (st : State) (e : Event) (lo : Z) :
  NoDup (identifiers st) ->
  (forall id, In id (identifiers st) ->
              exists t, (t < lo)%Z /\ id = toString t) ->
  ascendingFrom lo (clock e) = true ->
  exists lo',
    NoDup (identifiers (step st e)) /\
    (forall id, In id (identifiers (step st e)) ->
                exists t, (t < lo')%Z /\ id = toString t) /\
    (lo <= lo')%Z /\
    (forall rest, ascendingFrom lo (clock e ++ rest) = true ->
                  ascendingFrom lo' rest = true).
Proof.
  intros Hnd Hold Hasc. unfold identifiers in *.
  assert (Hfresh : forall now, (lo <= now)%Z ->
            ~ In (toString now)
                 (map TextAnnotation.id (textAnnotations st) ++
                  map BlurArea.id (blurAreas st))).
  { intros now Hnow Hin. destruct (Hold _ Hin) as [t [Ht Heq]].
    apply toString_inj in Heq. lia. }
  assert (Hbound : forall now, (lo <= now)%Z ->
            forall id,
              In id (toString now ::
                     map TextAnnotation.id (textAnnotations st) ++
                     map BlurArea.id (blurAreas st)) ->
              exists t, (t < now + 1)%Z /\ id = toString t).
  { intros now Hnow id [<-|Hin].
    - exists now. split; [lia|reflexivity].
    - destruct (Hold _ Hin) as [t [Ht Heq]]. exists t. split; [lia|auto]. }
  destruct (step_shape st e)
    as [[p [q [-> ->]]]|[(now & a & Hc & Hid & -> & ->)
                        |(now & b & Hc & Hid & -> & ->)]].
  - exists lo. split; [now apply NoDup_map_filter_app|].
    split; [|split].
    + intros id Hin. apply Hold. now apply In_map_filter_app in Hin.
    + lia.
    + intros rest Hrest.
      destruct (clock_cases e) as [Hc|[now Hc]]; rewrite Hc in Hrest;
        [exact Hrest|].
      simpl in Hrest. apply andb_true_iff in Hrest as [Ht Hrest].
      apply (ascendingFrom_weaken lo (now + 1)); [lia|exact Hrest].
  - rewrite Hc in Hasc. simpl in Hasc. rewrite andb_true_r in Hasc.
    apply Z.leb_le in Hasc.
    exists (now + 1)%Z.
    rewrite map_app. simpl. rewrite <- app_assoc. simpl. rewrite Hid.
    split; [|split; [|split]].
    + apply (NoDup_Add (Add_app _ _ _)). split; [exact Hnd|now apply Hfresh].
    + intros id Hin. apply (Hbound now Hasc).
      apply in_app_or in Hin as [Hin|[<-|Hin]];
        [right; apply in_or_app; now left|now left
        |right; apply in_or_app; now right].
    + lia.
    + intros rest Hrest. rewrite Hc in Hrest. simpl in Hrest.
      now apply andb_true_iff in Hrest as [_ Hrest].
  - rewrite Hc in Hasc. simpl in Hasc. rewrite andb_true_r in Hasc.
    apply Z.leb_le in Hasc.
    exists (now + 1)%Z.
    rewrite map_app. simpl. rewrite app_assoc. rewrite Hid.
    split; [|split; [|split]].
    + pose proof (Add_app (toString now)
                    (map TextAnnotation.id (textAnnotations st) ++
                     map BlurArea.id (blurAreas st)) []) as Hadd.
      rewrite app_nil_r in Hadd.
      apply (NoDup_Add Hadd). split; [exact Hnd|now apply Hfresh].
    + intros id Hin. apply (Hbound now Hasc).
      apply in_app_or in Hin as [Hin|[<-|[]]]; [now right|now left].
    + lia.
    + intros rest Hrest. rewrite Hc in Hrest. simpl in Hrest.
      now apply andb_true_iff in Hrest as [_ Hrest].
Qed.

Lemma ascendingFrom_clock (lo : Z) (e : Event) (rest : list Z) :
  ascendingFrom lo (clock e ++ rest) = true ->
  ascendingFrom lo (clock e) = true.
Proof.
  destruct (clock_cases e) as [->|[now ->]]; simpl; [reflexivity|].
  intros H. apply andb_true_iff in H as [-> _]. reflexivity.
Qed.

(** X11.  As long as the clock readings of the clicks and pointer-ups
    increase strictly, all identifiers in the session are different, text
    annotations and blur areas taken together: starting from identifiers
    that are distinct numerals of readings below [lo], a run whose readings
    ascend from [lo] keeps the identifiers distinct. *)
Theorem identifiers_are_unique_when_the_clock_advances
    (events : list Event) (st : State) (lo : Z) :
  NoDup (identifiers st) ->
  (forall id, In id (identifiers st) ->
              exists t, (t < lo)%Z /\ id = toString t) ->
  ascendingFrom lo (clocks events) = true ->
  NoDup (identifiers (run events st)).
Proof.
  revert st lo. induction events as [|e events IH]; intros st lo Hnd Hold Hasc.
  - exact Hnd.
  - rewrite run_cons. unfold clocks in Hasc. simpl in Hasc.
    destruct (identifiers_step st e lo Hnd Hold
                (ascendingFrom_clock _ _ _ Hasc))
      as (lo' & Hnd' & Hold' & _ & Hrest).
    apply (IH (step st e) lo' Hnd' Hold'). now apply Hrest.
Qed.

Lemma identifiers_are_unique_when_the_clock_advances_witness :
  NoDup (identifiers
           (run [TypeText (js "first");
                 CanvasClick (Some originRect) (pointer 10 10) 1700000000000;
                 TypeText (js "second");
                 CanvasClick (Some originRect) (pointer 200 200) 1700000000001;
                 SelectTool Blur;
                 MouseDown (Some originRect) (pointer 50 50);
                 MouseUp (Some originRect) (pointer 150 120) 1700000000002]
                textState)).
Proof.
  apply (identifiers_are_unique_when_the_clock_advances _ textState 0).
  - constructor.
  - intros id Hin. destruct Hin.
  - reflexivity.
Defined.

(** ** Removal from the annotation list *)

(** X12.  Removing by identifier deletes from the chosen collection every
    entry with that identifier, and only those; the other collection is
    not touched.  When no entry has the identifier the state is unchanged,
    and the success notification is raised all the same. *)
Theorem removeAnnotation_removes_by_id (st : State) (id : jsstring) :
  let t := fst (removeAnnotation id KText st) in
  let b := fst (removeAnnotation id KBlur st) in
  (forall a, In a (textAnnotations t) <->
             In a (textAnnotations st) /\ TextAnnotation.id a <> id) /\
  blurAreas t = blurAreas st /\
  (forall a, In a (blurAreas b) <->
             In a (blurAreas st) /\ BlurArea.id a <> id) /\
  textAnnotations b = textAnnotations st /\
  ((forall a, In a (textAnnotations st) -> TextAnnotation.id a <> id) ->
   t = st) /\
  ((forall a, In a (blurAreas st) -> BlurArea.id a <> id) -> b = st) /\
  (forall type, snd (removeAnnotation id type st) =
                  [ToastSuccess "Annotation removed"]).
Proof.
  assert (Hneq : forall s : jsstring,
             negb (jsstring_eqb s id) = true <-> s <> id).
  { intros s. rewrite negb_true_iff, <- not_true_iff_false.
    now rewrite jsstring_eqb_eq. }
  cbn. repeat match goal with |- _ /\ _ => split end.
  - intros a. rewrite filter_In. now rewrite Hneq.
  - reflexivity.
  - intros a. rewrite filter_In. now rewrite Hneq.
  - reflexivity.
  - intros Hno. rewrite filter_all_kept; [now destruct st|].
    intros a Ha. apply Hneq. now apply Hno.
  - intros Hno. rewrite filter_all_kept; [now destruct st|].
    intros a Ha. apply Hneq. now apply Hno.
  - intros []; reflexivity.
Qed.

(** ** Drawing and erasing together *)

(** X13.  What the text tool places, the erase tool finds: a pointer-down
    in erase mode on the spot of the click that placed a text annotation
    (same canvas position, same zoom) removes that annotation. *)
Theorem placed_text_is_erased_by_a_click_on_it
    (st : State) (rect : DOMRect) (event : MouseEvent) (now : Z) :
  activeTool st = Text ->
  (exists c, In c (newText st) /\ is_whitespace c = false) ->
  let p := toDocumentSpace event rect (scale st) in
  let a := TextAnnotation.mk (toString now) (Point.x p) (Point.y p)
                             (newText st) (fontSize st) (textColor st) in
  In a (textAnnotations (run [CanvasClick (Some rect) event now] st)) /\
  ~ In a (textAnnotations
            (run [CanvasClick (Some rect) event now; SelectTool Erase;
                  MouseDown (Some rect) event] st)).
Proof.
  intros Htool Htext p a. apply trim_truthy_iff in Htext.
  assert (Hplaced : textAnnotations (run [CanvasClick (Some rect) event now] st)
                    = textAnnotations st ++ [a]).
  { unfold run, step. cbn [fold_left handle].
    unfold handleCanvasClick. rewrite Htool, Htext. reflexivity. }
  split.
  - rewrite Hplaced. apply in_or_app. right. now left.
  - unfold run, step. cbn [fold_left handle].
    unfold handleCanvasClick. rewrite Htool, Htext.
    cbn -[toDocumentSpace keepText keepBlur]. fold p. fold a.
    intros Hin. apply filter_In in Hin as [_ Hkeep].
    unfold keepText in Hkeep. apply gtb_true_iff in Hkeep.
    assert (Hd : distance a p = 0).
    { unfold distance, a. cbn [TextAnnotation.x TextAnnotation.y].
      replace (Point.x p - Point.x p) with 0 by ring.
      replace (Point.y p - Point.y p) with 0 by ring.
      replace (0 ^ 2 + 0 ^ 2) with 0 by ring. apply sqrt_0. }
    rewrite Hd in Hkeep. lra.
Qed.

Lemma placed_text_is_erased_by_a_click_on_it_witness :
  ~ In (TextAnnotation.mk (toString 1700000000000)
                          ((100 - 10) / 1.0) ((100 - 20) / 1.0)
                          (js "Confidential") 16 (js "#000000"))
       (textAnnotations
          (run [CanvasClick (Some shiftedRect) (pointer 100 100) 1700000000000;
                SelectTool Erase;
                MouseDown (Some shiftedRect) (pointer 100 100)]
               (run [TypeText (js "Confidential")] textState))).
Proof.
  refine (proj2 (placed_text_is_erased_by_a_click_on_it
                   (run [TypeText (js "Confidential")] textState)
                   shiftedRect (pointer 100 100) 1700000000000 eq_refl _)).
  exists 67%N. split; [left; reflexivity|reflexivity].
Defined.



(** ** Export: edge cases *)

Lemma pageAt_out_of_range (pages : list R) (i : Z) :
  (i < 0 \/ Z.of_nat (List.length pages) <= i)%Z -> pageAt pages i = None.
Proof.
  intros Hi. unfold pageAt.
  destruct (0 <=? i)%Z eqn:H0; [|reflexivity].
  apply Z.leb_le in H0. apply nth_error_None. lia.
Qed.

(** X15.  With nothing to draw the export succeeds whenever the file
    parses, whatever the current page is, even one the document does not
    have: it saves the document with no drawing on it, under the name
    [edited-document-page-<currentPage>.pdf]. *)
Theorem export_of_nothing_always_saves
    (PDFDocument_load : list N -> option (list R))
    (st : State) (file : File) (pages : list R) :
  pdfFile st = Some file ->
  PDFDocument_load (file_bytes file) = Some pages ->
  textAnnotations st = [] ->
  blurAreas st = [] ->
  downloadModifiedPDF PDFDocument_load st =
    (Saved [] (js "edited-document-page-" ++ toString (currentPage st) ++
               js ".pdf"),
     [ToastInfo "Generating modified PDF...";
      ToastSuccess "PDF downloaded successfully!"]).
Proof.
  intros Hfile Hload Htext Hblur.
  unfold downloadModifiedPDF. rewrite Hfile, Hload, Htext, Hblur.
  destruct (pageAt pages (currentPage st - 1)); reflexivity.
Qed.

Lemma export_of_nothing_always_saves_witness :
  fst (downloadModifiedPDF sampleLoad
         (run [DocumentLoadSuccess 7; NextPage; NextPage; NextPage]
              readyState)) =
  Saved [] (js "edited-document-page-4.pdf").
Proof.
  rewrite (export_of_nothing_always_saves sampleLoad
             (run [DocumentLoadSuccess 7; NextPage; NextPage; NextPage]
                  readyState)
             samplePdf [792; 792; 792] eq_refl eq_refl eq_refl eq_refl).
  reflexivity.
Defined.

(** X16.  With something to draw, the export fails when the current page
    is not a page of the parsed document (below 1 or beyond its last
    page): nothing is saved and the failure is notified. *)
Theorem export_fails_on_missing_page
    (PDFDocument_load : list N -> option (list R))
    (st : State) (file : File) (pages : list R) :
  pdfFile st = Some file ->
  PDFDocument_load (file_bytes file) = Some pages ->
  (currentPage st < 1 \/ Z.of_nat (List.length pages) < currentPage st)%Z ->
  textAnnotations st <> [] \/ blurAreas st <> [] ->
  downloadModifiedPDF PDFDocument_load st =
    (Failed,
     [ToastInfo "Generating modified PDF...";
      ToastError "Failed to save PDF. Please try again."]).
Proof.
  intros Hfile Hload Hpage Hsome.
  unfold downloadModifiedPDF. rewrite Hfile, Hload.
  rewrite pageAt_out_of_range by lia.
  destruct (textAnnotations st) as [|a tas]; [|reflexivity].
  destruct (blurAreas st) as [|b bas]; [|reflexivity].
  destruct Hsome as [H|H]; now destruct H.
Qed.

Lemma export_fails_on_missing_page_witness :
  fst (downloadModifiedPDF sampleLoad
         (run [DocumentLoadSuccess 7; NextPage; NextPage; NextPage]
              annotatedState)) = Failed.
Proof.
  rewrite (export_fails_on_missing_page sampleLoad
             (run [DocumentLoadSuccess 7; NextPage; NextPage; NextPage]
                  annotatedState)
             samplePdf [792; 792; 792] eq_refl eq_refl).
  - reflexivity.
  - right. cbn. lia.
  - left. cbn. discriminate.
Defined.

(** X17.  The colour of an [<input type="color">], [#rrggbb], gives three
    channels that are numbers in the unit interval, as [rgb] of the
    construction library expects. *)
Theorem channels_of_a_colour_are_in_the_unit_interval (r g b : Z) :
  (0 <= r < 256)%Z -> (0 <= g < 256)%Z -> (0 <= b < 256)%Z ->
  exists vr vg vb,
    channel (hexColor r g b) 1 3 = Some vr /\
    channel (hexColor r g b) 3 5 = Some vg /\
    channel (hexColor r g b) 5 7 = Some vb /\
    0 <= vr <= 1 /\ 0 <= vg <= 1 /\ 0 <= vb <= 1.
Proof.
  intros Hr Hg Hb.
  destruct (channels_of_hexColor r g b Hr Hg Hb) as (H1 & H2 & H3).
  assert (Hunit : forall n, (0 <= n < 256)%Z -> 0 <= IZR n / 255 <= 1).
  { intros n [Hlo Hhi].
    apply IZR_le in Hlo.
    assert (Hle : (n <= 255)%Z) by lia. apply IZR_le in Hle.
    split.
    - apply Rmult_le_pos; lra.
    - apply (Rmult_le_reg_r 255); [lra|]. field_simplify; lra. }
  exists (IZR r / 255), (IZR g / 255), (IZR b / 255).
  repeat split; try assumption; now apply Hunit.
Qed.

Lemma channels_of_a_colour_are_in_the_unit_interval_witness :
  exists vr vg vb,
    channel (js "#ff8000") 1 3 = Some vr /\
    channel (js "#ff8000") 3 5 = Some vg /\
    channel (js "#ff8000") 5 7 = Some vb /\
    0 <= vr <= 1 /\ 0 <= vg <= 1 /\ 0 <= vb <= 1.
Proof.
  apply (channels_of_a_colour_are_in_the_unit_interval 255 128 0); lia.
Defined.

(** X18.  A colour string too short to have the digits of a channel gives
    NaN for that channel: a string of at most [a] code units has no
    number at positions [a] to [b].  So the short form [#rgb] has no blue
    channel. *)
Theorem short_colour_has_no_channel (color : jsstring) (a b : nat) :
  (List.length color <= a)%nat ->
  channel color a b = None.
Proof.
  intros Hlen. unfold channel, slice.
  rewrite skipn_all2 by exact Hlen.
  rewrite firstn_nil. reflexivity.
Qed.

Lemma short_colour_has_no_channel_witness :
  channel (js "#fff") 5 7 = None.
Proof.
  apply short_colour_has_no_channel. cbn. lia.
Defined.

(** ** Erasing what is displayed *)





(** ** The direction of a drag *)

(** X21.  The blur area does not depend on the direction of the drag:
    dragging from one point to another and dragging back the other way
    (same canvas position, same clock reading) leave the same blur
    areas. *)
Theorem blur_area_is_independent_of_drag_direction
    (st : State) (rectA rectB : DOMRect) (eventA eventB : MouseEvent) (now : Z) :
  activeTool st = Blur ->
  blurAreas (run [MouseDown (Some rectA) eventA;
                  MouseUp (Some rectB) eventB now] st) =
  blurAreas (run [MouseDown (Some rectB) eventB;
                  MouseUp (Some rectA) eventA now] st).
Proof.
  intros Htool.
  destruct (blur_gesture_result st rectA rectB eventA eventB now Htool)
    as [-> _].
  destruct (blur_gesture_result st rectB rectA eventB eventA now Htool)
    as [-> _].
  set (pA := toDocumentSpace eventA rectA (scale st)).
  set (pB := toDocumentSpace eventB rectB (scale st)).
  rewrite (Rabs_minus_sym (Point.x pB) (Point.x pA)).
  rewrite (Rabs_minus_sym (Point.y pB) (Point.y pA)).
  rewrite (Rmin_comm (Point.x pA) (Point.x pB)).
  rewrite (Rmin_comm (Point.y pA) (Point.y pB)).
  reflexivity.
Qed.

Lemma blur_area_is_independent_of_drag_direction_witness :
  blurAreas (run [MouseDown (Some originRect) (pointer 50 50);
                  MouseUp (Some originRect) (pointer 150 120) 1700000000000]
                 blurState) =
  blurAreas (run [MouseDown (Some originRect) (pointer 150 120);
                  MouseUp (Some originRect) (pointer 50 50) 1700000000000]
                 blurState).
Proof.
  apply blur_area_is_independent_of_drag_direction. reflexivity.
Defined.

(** * The thresholds in double precision *)

(** ** Comparisons of doubles *)

Lemma SFcompare_antisym (a b : spec_float) :
  SFcompare b a = option_map CompOpp (SFcompare a b).
Proof.
  destruct a as [sa|sa| |sa ma ea], b as [sb|sb| |sb mb eb];
    try destruct sa; try destruct sb; try reflexivity; simpl;
    rewrite (Z.compare_antisym ea eb);
    destruct (ea ?= eb)%Z; simpl; try reflexivity;
    rewrite (Pos.compare_cont_antisym ma mb Eq); simpl;
    now rewrite ?CompOpp_involutive.
Qed.

(** [a <= b] excludes [a > b]. *)
Lemma Double_leb_not_gtb (a b : Double.double) :
  Double.leb a b = true -> Double.gtb a b = false.
Proof.
  unfold Double.leb, Double.gtb, SFleb, SFltb.
  rewrite (SFcompare_antisym a b).
  destruct (SFcompare a b) as [[| |]|]; simpl; congruence.
Qed.

(** [a === b] excludes [a > b]. *)
Lemma Double_eqb_not_gtb (a b : Double.double) :
  SFeqb a b = true -> Double.gtb a b = false.
Proof.
  unfold Double.gtb, SFeqb, SFltb.
  rewrite (SFcompare_antisym a b).
  destruct (SFcompare a b) as [[| |]|]; simpl; congruence.
Qed.

(** ** The blur tool *)

Section DoubleBlurGesture.

Variable st : Double.State.
Variables (rect1 rect2 : Double.DOMRect) (down up : Double.MouseEvent) (now : Z).

Let p1 := Double.toDocumentSpace down rect1 (Double.scale st).
Let p2 := Double.toDocumentSpace up rect2 (Double.scale st).
Let w := Double.abs (Double.sub (Double.Point.x p2) (Double.Point.x p1)).
Let h := Double.abs (Double.sub (Double.Point.y p2) (Double.Point.y p1)).
Let area :=
  Double.BlurArea.mk (toString now)
    (Double.min (Double.Point.x p1) (Double.Point.x p2))
    (Double.min (Double.Point.y p1) (Double.Point.y p2)) w h.
Let st' :=
  Double.run [Double.MouseDown (Some rect1) down;
              Double.MouseUp (Some rect2) up now] st.

Lemma double_blur_gesture_result :
  Double.activeTool st = Blur ->
  Double.blurAreas st' =
    (if Double.gtb w (Double.ofZ 10) && Double.gtb h (Double.ofZ 10)
     then Double.blurAreas st ++ [area] else Double.blurAreas st)
  /\ Double.isDrawing st' = false /\ Double.startPoint st' = None.
Proof.
  intros Htool. subst st'. unfold Double.run, Double.step.
  simpl fold_left. unfold Double.handle, Double.handleMouseDown.
  rewrite Htool. cbn [fst].
  unfold Double.handleMouseUp, Double.andThen.
  cbn -[Double.toDocumentSpace Double.abs Double.min Double.gtb Double.sub
        Double.ofZ].
  rewrite Htool.
  fold p1 p2. fold w h.
  destruct (Double.gtb w (Double.ofZ 10) && Double.gtb h (Double.ofZ 10));
    cbn; repeat split.
Qed.

(** C1, as the code computes it.  A blur drag from [p1] to [p2] (the
    document points the handlers compute) appends the area with corner
    [(min x1 x2, min y1 y2)], width [|x2 - x1|] and height [|y2 - y1|],
    the differences being the doubles the subtraction returns, if and only
    if both of these doubles are greater than 10; otherwise, and in
    particular when one of them equals 10, the blur areas are as before.
    The drawing state is cleared in both cases. *)
Theorem double_blur_drag_creates_area_iff_large :
  Double.activeTool st = Blur ->
  (Double.blurAreas st' = Double.blurAreas st ++ [area] <->
   Double.gtb w (Double.ofZ 10) = true /\
   Double.gtb h (Double.ofZ 10) = true) /\
  (~ (Double.gtb w (Double.ofZ 10) = true /\
      Double.gtb h (Double.ofZ 10) = true) ->
   Double.blurAreas st' = Double.blurAreas st) /\
  (SFeqb w (Double.ofZ 10) = true \/ SFeqb h (Double.ofZ 10) = true ->
   Double.blurAreas st' = Double.blurAreas st) /\
  Double.isDrawing st' = false /\ Double.startPoint st' = None.
Proof.
  intros Htool.
  destruct (double_blur_gesture_result Htool) as [Hareas [Hdraw Hstart]].
  assert (Hsmall : ~ (Double.gtb w (Double.ofZ 10) = true /\
                      Double.gtb h (Double.ofZ 10) = true) ->
                   Double.blurAreas st' = Double.blurAreas st).
  { intros Hn. rewrite Hareas.
    destruct (Double.gtb w (Double.ofZ 10)) eqn:Hw;
      destruct (Double.gtb h (Double.ofZ 10)) eqn:Hh; simpl;
        try reflexivity.
    exfalso. apply Hn. now split. }
  assert (Hlen : Double.blurAreas st <> Double.blurAreas st ++ [area]).
  { intros Heq. apply (f_equal (@List.length _)) in Heq.
    rewrite List.length_app in Heq. simpl in Heq. lia. }
  split; [split|split; [exact Hsmall|split; [|split; assumption]]].
  - intros Heq. rewrite Hareas in Heq.
    destruct (Double.gtb w (Double.ofZ 10)) eqn:Hw;
      destruct (Double.gtb h (Double.ofZ 10)) eqn:Hh;
      simpl in Heq; try contradiction.
    now split.
  - intros [Hw Hh]. rewrite Hareas. now rewrite Hw, Hh.
  - intros [Hw|Hh]; apply Hsmall; intros [Hw' Hh'];
      [apply Double_eqb_not_gtb in Hw|apply Double_eqb_not_gtb in Hh];
      congruence.
Qed.

End DoubleBlurGesture.

(** Evaluation of the exact value of concrete doubles. *)
Ltac exact_values :=
  unfold Double.B2R, cond_Zopp, powerRZ;
  repeat match goal with
         | |- context [Pos.to_nat ?p] =>
             let n := eval compute in (Pos.to_nat p) in
             change (Pos.to_nat p) with n
         end;
  lra.

Lemma double_blur_drag_creates_area_iff_large_witness :
  Double.blurAreas
    (Double.run [Double.MouseDown (Some Double.originRect) (Double.pointer 1 0);
                 Double.MouseUp (Some Double.originRect) (Double.pointer 8 100)
                                1700000000000]
                blurAt07) =
  Double.blurAreas blurAt07.
Proof.
  destruct (double_blur_drag_creates_area_iff_large
              blurAt07 Double.originRect Double.originRect
              (Double.pointer 1 0) (Double.pointer 8 100)
              1700000000000 eq_refl) as [_ [_ [Hedge _]]].
  apply Hedge. left. vm_compute. reflexivity.
Defined.

(** At scale 0.7 the drag from client position (1, 0) to (8, 100) joins
    two document points that are more than 10 apart in both directions, the
    horizontal difference being 10.000000000000002; the subtraction rounds
    it to 10 and no blur area is created. *)
Lemma rounded_width_misses_the_threshold :
  let p1 := Double.toDocumentSpace (Double.pointer 1 0) Double.originRect
                                   (Double.scale blurAt07) in
  let p2 := Double.toDocumentSpace (Double.pointer 8 100) Double.originRect
                                   (Double.scale blurAt07) in
  Rabs (Double.B2R (Double.Point.x p2) - Double.B2R (Double.Point.x p1)) > 10 /\
  Rabs (Double.B2R (Double.Point.y p2) - Double.B2R (Double.Point.y p1)) > 10 /\
  Double.blurAreas
    (Double.run [Double.MouseDown (Some Double.originRect) (Double.pointer 1 0);
                 Double.MouseUp (Some Double.originRect) (Double.pointer 8 100)
                                1700000000000]
                blurAt07) =
  Double.blurAreas blurAt07.
Proof.
  vm_compute Double.toDocumentSpace. cbv zeta.
  cbn [Double.Point.x Double.Point.y].
  split; [|split].
  - rewrite Rabs_right; exact_values.
  - rewrite Rabs_right; exact_values.
  - vm_compute. reflexivity.
Qed.

(** ** The erase tool *)

(** C2, as the code computes it.  A pointer-down in erase mode at the
    document point [p] removes every text annotation for which the
    distance the code computes, the double
    [sqrt ((ax - px)^2 + (ay - py)^2)] with every operation rounded, is not
    greater than 30 (at most 30, or not a number) and keeps every one for
    which it is greater than 30.  It removes every blur area with
    [x <= px <= x + width] and [y <= py <= y + height], the sums being the
    doubles the addition returns, and keeps every other one; nothing is
    added.  When nothing matches, the state is unchanged.  In every case
    the only notification is the success message. *)
Theorem double_erase_removes_what_is_under_the_pointer
    (st : Double.State) (rect : Double.DOMRect) (event : Double.MouseEvent) :
  Double.activeTool st = Erase ->
  let p := Double.toDocumentSpace event rect (Double.scale st) in
  let st' := fst (Double.handleMouseDown (Some rect) event st) in
  let dist (a : Double.TextAnnotation.t) :=
    Double.sqrt
      (Double.add
         (Double.pow2 (Double.sub (Double.TextAnnotation.x a) (Double.Point.x p)))
         (Double.pow2 (Double.sub (Double.TextAnnotation.y a) (Double.Point.y p))))
  in
  let inside (b : Double.BlurArea.t) :=
    Double.geb (Double.Point.x p) (Double.BlurArea.x b) = true /\
    Double.leb (Double.Point.x p)
               (Double.add (Double.BlurArea.x b) (Double.BlurArea.width b))
      = true /\
    Double.geb (Double.Point.y p) (Double.BlurArea.y b) = true /\
    Double.leb (Double.Point.y p)
               (Double.add (Double.BlurArea.y b) (Double.BlurArea.height b))
      = true in
  (forall a, In a (Double.textAnnotations st) ->
             Double.leb (dist a) (Double.ofZ 30) = true ->
             ~ In a (Double.textAnnotations st')) /\
  (forall a, In a (Double.textAnnotations st) ->
             Double.gtb (dist a) (Double.ofZ 30) = false ->
             ~ In a (Double.textAnnotations st')) /\
  (forall a, In a (Double.textAnnotations st) ->
             Double.gtb (dist a) (Double.ofZ 30) = true ->
             In a (Double.textAnnotations st')) /\
  (forall a, In a (Double.textAnnotations st') ->
             In a (Double.textAnnotations st)) /\
  (forall b, In b (Double.blurAreas st) -> inside b ->
             ~ In b (Double.blurAreas st')) /\
  (forall b, In b (Double.blurAreas st) -> ~ inside b ->
             In b (Double.blurAreas st')) /\
  (forall b, In b (Double.blurAreas st') -> In b (Double.blurAreas st)) /\
  ((forall a, In a (Double.textAnnotations st) ->
              Double.gtb (dist a) (Double.ofZ 30) = true) ->
   (forall b, In b (Double.blurAreas st) -> ~ inside b) ->
   st' = st) /\
  snd (Double.handleMouseDown (Some rect) event st) =
    [ToastSuccess "Annotation erased"].
Proof.
  intros Htool p st' dist inside.
  assert (Htext : Double.textAnnotations st' =
                  filter (Double.keepText p) (Double.textAnnotations st)).
  { subst st'. unfold Double.handleMouseDown. rewrite Htool. reflexivity. }
  assert (Hblur : Double.blurAreas st' =
                  filter (Double.keepBlur p) (Double.blurAreas st)).
  { subst st'. unfold Double.handleMouseDown. rewrite Htool. reflexivity. }
  assert (Hkeep : forall a, Double.keepText p a = Double.gtb (dist a) (Double.ofZ 30))
    by reflexivity.
  assert (Hin : forall b, Double.keepBlur p b = true <-> ~ inside b).
  { intros b. unfold Double.keepBlur, Double.containsPoint, inside.
    rewrite negb_true_iff, <- not_true_iff_false, !andb_true_iff. tauto. }
  rewrite Htext, Hblur.
  repeat match goal with |- _ /\ _ => split end.
  - intros a _ Hd Hf. apply filter_In in Hf as [_ Hf].
    rewrite Hkeep in Hf. apply Double_leb_not_gtb in Hd. congruence.
  - intros a _ Hd Hf. apply filter_In in Hf as [_ Hf].
    rewrite Hkeep in Hf. congruence.
  - intros a Ha Hd. apply filter_In. split; [assumption|now rewrite Hkeep].
  - intros a Hf. now apply filter_In in Hf.
  - intros b _ Hb Hf. apply filter_In in Hf as [_ Hf].
    apply Hin in Hf. contradiction.
  - intros b Hb Hn. apply filter_In. split; [assumption|now apply Hin].
  - intros b Hf. now apply filter_In in Hf.
  - intros Hfar Hout. subst st'. unfold Double.handleMouseDown. rewrite Htool.
    cbn -[Double.toDocumentSpace Double.keepText Double.keepBlur]. fold p.
    rewrite (filter_all_kept (Double.keepText p)) by
      (intros a Ha; rewrite Hkeep; auto).
    rewrite (filter_all_kept (Double.keepBlur p)) by
      (intros b Hb; apply Hin; auto).
    now destruct st.
  - unfold Double.handleMouseDown. now rewrite Htool.
Qed.

Lemma double_erase_removes_what_is_under_the_pointer_witness :
  Double.textAnnotations
    (fst (Double.handleMouseDown (Some Double.originRect)
            (Double.pointer 25 0) eraseAt07)) = [].
Proof.
  destruct (double_erase_removes_what_is_under_the_pointer
              eraseAt07 Double.originRect (Double.pointer 25 0) eq_refl)
    as (Hle & _ & _ & Hsub & _).
  destruct (Double.textAnnotations
              (fst (Double.handleMouseDown (Some Double.originRect)
                      (Double.pointer 25 0) eraseAt07))) as [|a l] eqn:Hl;
    [reflexivity|].
  exfalso.
  assert (Ha : In a (Double.textAnnotations eraseAt07))
    by (apply Hsub; now left).
  vm_compute in Ha. destruct Ha as [<-|[]].
  apply (Hle _ (or_introl eq_refl)); [vm_compute; reflexivity|now left].
Defined.

(** At scale 0.7 a pointer-down in erase mode at client position (25, 0)
    removes the text placed at (4, 0), although the two document points
    are more than 30 apart: the difference 30.000000000000004 is rounded to
    30.  At scale 1.2 a pointer-down at (14, 50) removes the blur area
    dragged from (1, 0) to (14, 100), although the point lies to the right
    of [x + width]: the sum is rounded up. *)
Lemma rounding_decides_the_erase :
  (let a := Double.TextAnnotation.mk (toString 1700000000000)
              (Double.div (Double.ofZ 4) (Double.decimal 7 10))
              (Double.div (Double.ofZ 0) (Double.decimal 7 10))
              (js "note") (Double.ofZ 16) (js "#000000") in
   let p := Double.toDocumentSpace (Double.pointer 25 0) Double.originRect
                                   (Double.scale eraseAt07) in
   Double.scale eraseAt07 = Double.decimal 7 10 /\
   Double.textAnnotations eraseAt07 = [a] /\
   sqrt ((Double.B2R (Double.TextAnnotation.x a) - Double.B2R (Double.Point.x p)) ^ 2 +
         (Double.B2R (Double.TextAnnotation.y a) - Double.B2R (Double.Point.y p)) ^ 2)
     > 30 /\
   Double.textAnnotations
     (fst (Double.handleMouseDown (Some Double.originRect)
             (Double.pointer 25 0) eraseAt07)) = []) /\
  (let p := Double.toDocumentSpace (Double.pointer 14 50) Double.originRect
                                   (Double.scale eraseAt12) in
   exists b,
     Double.blurAreas eraseAt12 = [b] /\
     Double.B2R (Double.Point.x p) >
       Double.B2R (Double.BlurArea.x b) + Double.B2R (Double.BlurArea.width b) /\
     Double.blurAreas
       (fst (Double.handleMouseDown (Some Double.originRect)
               (Double.pointer 14 50) eraseAt12)) = []).
Proof.
  split.
  - cbv zeta. split; [vm_compute; reflexivity|].
    split; [vm_compute; reflexivity|].
    split; [|vm_compute; reflexivity].
    vm_compute Double.toDocumentSpace. vm_compute Double.div.
    cbn [Double.Point.x Double.Point.y Double.TextAnnotation.x
         Double.TextAnnotation.y].
    apply Rlt_gt. rewrite <- (sqrt_square 30) by lra.
    apply sqrt_lt_1_alt. split; [lra|]. exact_values.
  - cbv zeta.
    eexists. split; [vm_compute; reflexivity|].
    split; [|vm_compute; reflexivity].
    vm_compute Double.toDocumentSpace.
    cbn [Double.Point.x Double.BlurArea.x Double.BlurArea.width].
    exact_values.
Qed.
